(** * ekspods: the backend of the JMeter-on-EKS platform

    A shallow embedding of [backend/aws_utils.py],
    [backend/eks_jmeter_manager.py] and [backend/main.py], and the
    properties of the run coordinator, the status convention, the error
    paths and the listing functions.

    Python [str] values are modelled as [string] (one [ascii] per
    character, so the model covers ASCII text); [int] as [Z]; a [dict]
    with fixed keys as a record, an optional key as an [option] field. *)

From Stdlib Require Import ZArith List String Ascii Bool Lia Arith.
From Stdlib Require Import Permutation Sorted OrderedTypeEx.
From Stdlib Require Import DecimalString DecimalNat DecimalZ.
Import ListNotations.

Local Open Scope string_scope.
Local Open Scope list_scope.

(** ** Python string primitives *)

Module PyStr.

(** [str.isspace] on one ASCII character: TAB, LF, VT, FF, CR, the four
    separators FS GS RS US, and SPACE. *)
Definition is_space (c : ascii) : bool :=
  let n := nat_of_ascii c in
  ((9 <=? n)%nat && (n <=? 13)%nat) || ((28 <=? n)%nat && (n <=? 32)%nat).

Fixpoint lstrip (s : string) : string :=
  match s with
  | EmptyString => EmptyString
  | String c t => if is_space c then lstrip t else s
  end.

Fixpoint rstrip (s : string) : string :=
  match s with
  | EmptyString => EmptyString
  | String c t =>
      match rstrip t with
      | EmptyString => if is_space c then EmptyString else String c EmptyString
      | t' => String c t'
      end
  end.

(** [s.strip()] *)
Definition strip (s : string) : string := rstrip (lstrip s).

(** [s.lower()] on ASCII: only [A]..[Z] change. *)
Definition lower_char (c : ascii) : ascii :=
  let n := nat_of_ascii c in
  if ((65 <=? n)%nat && (n <=? 90)%nat)%bool then ascii_of_nat (n + 32) else c.

Fixpoint lower (s : string) : string :=
  match s with
  | EmptyString => EmptyString
  | String c t => String (lower_char c) (lower t)
  end.

(** [s.startswith(p)] *)
Definition startswith (p s : string) : bool := String.prefix p s.

(** [needle in hay] *)
Fixpoint contains (needle hay : string) : bool :=
  String.prefix needle hay ||
  match hay with
  | EmptyString => false
  | String _ t => contains needle t
  end.

(** [s.endswith(suf)] *)
Definition endswith (suf s : string) : bool :=
  (String.length suf <=? String.length s)%nat &&
  String.eqb (substring (String.length s - String.length suf)
                        (String.length suf) s) suf.

(** [s[:-n]] for [0 < n <= len(s)] (the only use in the source follows a
    successful [endswith] of a non-empty suffix). *)
Definition drop_last (n : nat) (s : string) : string :=
  substring 0 (String.length s - n) s.

(** [str(n)] for an [int]. *)
Definition str_of_Z (n : Z) : string := NilZero.string_of_int (Z.to_int n).

(** [str(n)] for a non-negative [int] given as a [nat] (a [range] index). *)
Definition str_of_nat (n : nat) : string := NilZero.string_of_uint (Nat.to_uint n).

(** [repr] of a [str] without quotes, backslashes or control characters,
    and of a list of such. *)
Definition repr_str (s : string) : string := "'" ++ s ++ "'".
Definition repr_list (l : list string) : string :=
  "[" ++ String.concat ", " (map repr_str l) ++ "]".

(** [str] of [subprocess.CalledProcessError(returncode, cmd)] for a positive
    return code. *)
Definition called_process_error_message (cmd : list string) (rc : Z) : string :=
  "Command '" ++ repr_list cmd ++ "' returned non-zero exit status "
  ++ str_of_Z rc ++ ".".

(** Code-point order of [str], as [<=] and [<] use it. *)
Definition le (a b : string) : Prop := String.leb a b = true.
Definition lt (a b : string) : Prop := String.ltb a b = true.

End PyStr.

(** ** Python's [sorted] *)

Module PySort.

Section Sorted.
Context {A : Type}.
(** [leb a b]: the key of [a] is at most the key of [b]. *)
Variable leb : A -> A -> bool.

(** [x] goes before the first element whose key is not below its own. *)
Fixpoint insert (x : A) (l : list A) : list A :=
  match l with
  | [] => [x]
  | y :: t => if leb x y then x :: l else y :: insert x t
  end.

(** [sorted] is a stable sort, and a stable sort has one result for a
    given total preorder on keys.  This insertion sort computes it: the
    head of the input is inserted into the sorted tail in front of every
    element of equal key, all of which followed it in the input. *)
Fixpoint sort (l : list A) : list A :=
  match l with
  | [] => []
  | x :: t => insert x (sort t)
  end.
End Sorted.

(** [sorted(l, key=key)] on string keys. *)
Definition sorted_by {A} (key : A -> string) (l : list A) : list A :=
  sort (fun a b => String.leb (key a) (key b)) l.

(** [sorted(l, key=key, reverse=True)]: descending keys, equal keys still
    in input order. *)
Definition sorted_by_reverse {A} (key : A -> string) (l : list A) : list A :=
  sort (fun a b => String.leb (key b) (key a)) l.

(** [sorted(l)] on strings. *)
Definition sorted (l : list string) : list string := sorted_by (fun s => s) l.

End PySort.

(** ** [backend/aws_utils.py] *)

Module AwsUtils.

(** What a call of the cloud SDK gives: the response, or an exception
    with its message (everything [except Exception] catches). *)
Inductive aws_result (A : Type) : Type :=
| AwsOk (response : A)
| AwsError (message : string).
Arguments AwsOk {A} response.
Arguments AwsError {A} message.

(** [aws_cfg = Config(retries={'max_attempts': 4})]: every client of this
    module is built with it. *)
Record Config := { retries_max_attempts : Z }.
Definition aws_cfg : Config := {| retries_max_attempts := 4 |}.

(** *** [list_regions] *)

Record Region := { RegionName : string }.

Definition list_regions (describe_regions : aws_result (list Region))
  : list string :=
  match describe_regions with
  | AwsOk regions => map RegionName regions
  | AwsError _ => []
  end.

(** *** [list_instance_types] *)

(** One entry of a [describe_instance_types] page.  [SupportedArchitectures]
    is [None] when [ProcessorInfo] or its [SupportedArchitectures] key is
    missing. *)
Record InstanceTypeInfo := {
  InstanceType : string;
  SupportedArchitectures : option (list string);
  DefaultVCpus : Z;
  SizeInMiB : Z
}.

(** The dict the listing returns per instance type. *)
Record item := { type : string; arch : list string }.

Definition item_of (it : InstanceTypeInfo) : item :=
  {| type := InstanceType it;
     arch := match SupportedArchitectures it with
             | Some a => a
             | None => ["x86_64"]
             end |}.

Definition is_lower_letter (c : ascii) : bool :=
  let n := nat_of_ascii c in ((97 <=? n)%nat && (n <=? 122)%nat)%bool.

(** The group of [re.match(r"([a-z]+)", s)]: the longest leading run of
    lower-case letters (empty when there is no match). *)
Fixpoint leading_lower (s : string) : string :=
  match s with
  | EmptyString => EmptyString
  | String c t => if is_lower_letter c then String c (leading_lower t)
                  else EmptyString
  end.

Definition family (inst_type : string) : string :=
  match leading_lower inst_type with
  | EmptyString => inst_type
  | m => m
  end.

(** [grouped]: a dict from family to the list of its items, in insertion
    order. *)
Definition groups := list (string * list item).

(** [grouped.setdefault(k, []).append(x)] *)
Fixpoint setdefault_append (k : string) (x : item) (g : groups) : groups :=
  match g with
  | [] => [(k, [x])]
  | (k', l) :: g' =>
      if String.eqb k' k then (k', l ++ [x]) :: g'
      else (k', l) :: setdefault_append k x g'
  end.

Definition group_items (items : list item) : groups :=
  fold_left (fun g x => setdefault_append (family (type x)) x g) items [].

(** [grouped[fam]] for a key of the dict. *)
Fixpoint lookup (fam : string) (g : groups) : list item :=
  match g with
  | [] => []
  | (k, l) :: g' => if String.eqb k fam then l else lookup fam g'
  end.

Definition keys (g : groups) : list string := map fst g.

(** The pages of the paginator, flattened in order; an exception on any
    page discards everything collected so far. *)
Definition list_instance_types
    (paginate : aws_result (list (list InstanceTypeInfo))) : list item :=
  match paginate with
  | AwsError _ => []
  | AwsOk pages =>
      let items := map item_of (List.concat pages) in
      let grouped := group_items items in
      flat_map (fun fam => PySort.sorted_by type (lookup fam grouped))
               (PySort.sorted (keys grouped))
  end.

(** *** [list_amis] *)

(** One entry of [describe_images]; [ImageId] and [CreationDate] are
    indexed directly by the source, the other keys are read with [get]. *)
Record Image := {
  ImageId : string;
  CreationDate : string;
  Name : option string;
  Architecture : option string;
  Description : option string
}.

Record ami := { image_id : string; name : string; ami_arch : string; date : string }.

Definition get_or (o : option string) (d : string) : string :=
  match o with Some s => s | None => d end.

Definition ami_of (img : Image) : ami :=
  {| image_id := ImageId img;
     name := get_or (Name img) "";
     ami_arch := get_or (Architecture img) "";
     date := CreationDate img |}.

Definition list_amis (describe_images : aws_result (list Image)) : list ami :=
  match describe_images with
  | AwsError _ => []
  | AwsOk resp =>
      let images := PySort.sorted_by_reverse CreationDate resp in
      map ami_of (firstn 50 images)
  end.

(** *** [get_instance_info] *)

(** [memory_gib] is [round(mem_mib / 1024, 2)], a float; the model keeps
    the MiB count it is computed from. *)
Record instance_info := {
  instance_type : string;
  vcpus : Z;
  memory_mib : Z;
  info_arch : string
}.

(** A value returned, or an exception that leaves the function. *)
Inductive py_result (A : Type) : Type :=
| Returned (a : A)
| Raised (exception : string).
Arguments Returned {A} a.
Arguments Raised {A} exception.

(** [describe_instance_types(...)["InstanceTypes"][0]] is inside the
    [try]: an empty list raises [IndexError] there, which is caught like a
    provider error.  [arch[0]] is outside it. *)
Definition get_instance_info (inst_type : string)
    (describe : aws_result (list InstanceTypeInfo))
  : py_result (option instance_info) :=
  match describe with
  | AwsError _ => Returned None
  | AwsOk [] => Returned None
  | AwsOk (it :: _) =>
      match arch (item_of it) with
      | [] => Raised "list index out of range"
      | a :: _ =>
          Returned (Some {| instance_type := inst_type;
                            vcpus := DefaultVCpus it;
                            memory_mib := SizeInMiB it;
                            info_arch := a |})
      end
  end.

(** *** [detect_os_family] *)

Definition os_text (img : Image) : string :=
  PyStr.lower (get_or (Name img) "" ++ " " ++ get_or (Description img) "").

Definition detect_os_family (describe_images : aws_result (list Image))
  : string :=
  match describe_images with
  | AwsError _ => "Unknown"
  | AwsOk [] => "Unknown"
  | AwsOk (img :: _) =>
      let text := os_text img in
      if PyStr.contains "amazon-eks-node" text
         || PyStr.contains "amazon linux 2023" text
         || PyStr.contains "al2023" text
      then "AmazonLinux2023"
      else "Unknown"
  end.

End AwsUtils.

(** ** External tools and the effects of the backend

    Every operation of the manager shells out ([subprocess]) to [kubectl]
    or [eksctl], reads the clock or sleeps.  The outside world is an
    environment [Env]: a state, and what each external call answers in a
    state.  Programs are state-passing functions that also keep the trace
    of the calls they made. *)

Module Effects.

(** How a child process ends: it exits with a return code and its two
    output streams, or it could not be started ([OSError], as when the
    binary is missing). *)
Inductive completed : Type :=
| Exited (returncode : Z) (stdout stderr : string)
| NotStarted (message : string).

(** The exceptions the backend raises or meets. *)
Inductive exn : Type :=
| CalledProcessError (cmd : list string) (returncode : Z)
| OSError (message : string)
| RuntimeError (message : string)
| TimeoutError (message : string)
| ValueError (message : string)
| TemplateError (message : string)
| IndexError (message : string)
| HTTPException (status_code : Z) (detail : string).

(** The template context built by [/eks/create]. *)
Record context := {
  TESTPLAN_REPO : option string;
  MAX_SHARDS : Z;
  THREADS : Z;
  LOOP_COUNT : Z;
  TARGET_BASE_URL : option string;
  NAMESPACE : string;
  HTTP_PORT : Z;
  JMETER_RMI_PORT : Z
}.

Record Env := {
  World : Type;
  (** run [argv] with the given standard input to completion *)
  run : list string -> option string -> World -> completed * World;
  (** [time.time()], in clock ticks *)
  clock : World -> Z;
  ticks_per_second : Z;
  (** [time.sleep(seconds)] *)
  sleep : Z -> World -> World;
  (** [Path.exists] *)
  path_exists : string -> World -> bool;
  (** [os.makedirs(path, exist_ok=True)]: [Some message] is an [OSError] *)
  makedirs : string -> World -> option string * World;
  (** [render_template]: the rendered text, or the exception jinja2 raises *)
  render : string -> context -> World -> string + exn;
  (** [str] of a [subprocess.CalledProcessError] *)
  called_process_error_str : list string -> Z -> string
}.

Inductive event : Type :=
| Ran (argv : list string) (stdin : option string) (result : completed)
| Slept (seconds : Z).

Inductive outcome (A : Type) : Type :=
| Ret (a : A)
| Raise (e : exn)
| OutOfFuel.
Arguments Ret {A} a.
Arguments Raise {A} e.
Arguments OutOfFuel {A}.

Section WithEnv.
Context {E : Env}.

Record state := { world : World E; trace : list event }.

Definition M (A : Type) : Type := state -> outcome A * state.

Definition ret {A} (a : A) : M A := fun s => (Ret a, s).

Definition bind {A B} (c : M A) (k : A -> M B) : M B :=
  fun s =>
    match c s with
    | (Ret a, s') => k a s'
    | (Raise e, s') => (Raise e, s')
    | (OutOfFuel, s') => (OutOfFuel, s')
    end.

Definition raise {A} (e : exn) : M A := fun s => (Raise e, s).

Definition out_of_fuel {A} : M A := fun s => (OutOfFuel, s).

(** [try: c  except ...: h e]; [h e = None] when no clause matches [e]. *)
Definition try_except {A} (c : M A) (h : exn -> option (M A)) : M A :=
  fun s =>
    match c s with
    | (Raise e, s') =>
        match h e with
        | Some handler => handler s'
        | None => (Raise e, s')
        end
    | r => r
    end.

Definition run_process (argv : list string) (stdin : option string)
  : M completed :=
  fun s =>
    let (r, w) := run E argv stdin (world s) in
    (Ret r, {| world := w; trace := trace s ++ [Ran argv stdin r] |}).

Definition time : M Z := fun s => (Ret (clock E (world s)), s).

Definition time_sleep (seconds : Z) : M unit :=
  fun s => (Ret tt, {| world := sleep E seconds (world s);
                       trace := trace s ++ [Slept seconds] |}).

Definition exists_path (p : string) : M bool :=
  fun s => (Ret (path_exists E p (world s)), s).

Definition os_makedirs (p : string) : M unit :=
  fun s =>
    let (r, w) := makedirs E p (world s) in
    let s' := {| world := w; trace := trace s |} in
    match r with
    | None => (Ret tt, s')
    | Some m => (Raise (OSError m), s')
    end.

Definition jinja_render (name : string) (ctx : context) : M string :=
  fun s =>
    match render E name ctx (world s) with
    | inl text => (Ret text, s)
    | inr e => (Raise e, s)
    end.
End WithEnv.

Arguments state : clear implicits.
Arguments M : clear implicits.

Declare Scope py_scope.
Delimit Scope py_scope with py.
Notation "x <- c ;; k" := (bind c (fun x => k))
  (at level 61, c at next level, right associativity) : py_scope.
Notation "' pat <- c ;; k" :=
  (bind c (fun x => match x with pat => k end))
  (at level 61, pat pattern, c at next level, right associativity) : py_scope.
Notation "c ;;; k" := (bind c (fun _ => k))
  (at level 61, right associativity) : py_scope.

Section Subprocess.
Context {E : Env}.
Local Open Scope py_scope.

(** [subprocess.check_call(argv)] *)
Definition check_call (argv : list string) : M E unit :=
  r <- run_process argv None ;;
  match r with
  | Exited rc _ _ =>
      if (rc =? 0)%Z then ret tt else raise (CalledProcessError argv rc)
  | NotStarted m => raise (OSError m)
  end.

(** [subprocess.call(argv)] *)
Definition call (argv : list string) : M E Z :=
  r <- run_process argv None ;;
  match r with
  | Exited rc _ _ => ret rc
  | NotStarted m => raise (OSError m)
  end.

(** [subprocess.check_output(argv).decode()].  With [stderr=STDOUT] the
    environment's [stdout] stands for the merged stream. *)
Definition check_output (argv : list string) : M E string :=
  r <- run_process argv None ;;
  match r with
  | Exited rc out _ =>
      if (rc =? 0)%Z then ret out else raise (CalledProcessError argv rc)
  | NotStarted m => raise (OSError m)
  end.

(** [p = Popen(argv, ...); out, err = p.communicate(input)] with the
    streams decoded. *)
Definition popen_communicate (argv : list string) (input : option string)
  : M E (Z * string * string) :=
  r <- run_process argv input ;;
  match r with
  | Exited rc out err => ret (rc, out, err)
  | NotStarted m => raise (OSError m)
  end.
End Subprocess.

End Effects.

(** ** Paths: [pathlib] and [os.path] on POSIX *)

Module PyPath.

Definition is_slash (c : ascii) : bool := Ascii.eqb c "/"%char.

(** [s.split("/")] *)
Fixpoint split_slash (s : string) : list string :=
  match s with
  | EmptyString => [EmptyString]
  | String c t =>
      if is_slash c then EmptyString :: split_slash t
      else match split_slash t with
           | [] => [String c EmptyString]
           | h :: r => String c h :: r
           end
  end.

(** [Path(s).name]: the last component, empty and [.] components dropped. *)
Definition path_name (s : string) : string :=
  last (filter (fun p => negb (String.eqb p "" || String.eqb p "."))
               (split_slash s)) "".

(** [(p[:i], p[i:])] for [i = p.rfind("/") + 1]. *)
Fixpoint rsplit_slash (p : string) : string * string :=
  match p with
  | EmptyString => (EmptyString, EmptyString)
  | String c t =>
      let (h, b) := rsplit_slash t in
      match h with
      | EmptyString => if is_slash c then (String c EmptyString, t)
                       else (EmptyString, String c b)
      | _ => (String c h, b)
      end
  end.

Fixpoint all_slashes (s : string) : bool :=
  match s with
  | EmptyString => true
  | String c t => is_slash c && all_slashes t
  end.

Fixpoint rstrip_slashes (s : string) : string :=
  match s with
  | EmptyString => EmptyString
  | String c t =>
      match rstrip_slashes t with
      | EmptyString => if is_slash c then EmptyString else String c EmptyString
      | t' => String c t'
      end
  end.

(** [os.path.dirname] *)
Definition dirname (p : string) : string :=
  let head := fst (rsplit_slash p) in
  if all_slashes head then head else rstrip_slashes head.

(** [os.path.basename] *)
Definition basename (p : string) : string := snd (rsplit_slash p).

(** [os.path.join(a, b)] *)
Definition join (a b : string) : string :=
  if PyStr.startswith "/" b then b
  else if String.eqb a "" || PyStr.endswith "/" a then (a ++ b)%string
  else (a ++ "/" ++ b)%string.

End PyPath.

(** ** [backend/eks_jmeter_manager.py] *)

Module Manager.
Import Effects.
Local Open Scope py_scope.

(** Truth value of an [Optional[str]]: [None] and the empty string are
    false. *)
Definition truthy (o : option string) : bool :=
  match o with
  | Some (String _ _) => true
  | _ => false
  end.

(** [s or None] *)
Definition or_none (s : string) : option string :=
  match s with
  | EmptyString => None
  | _ => Some s
  end.

Module KubeHelper.
Section WithEnv.
Context {E : Env}.

Definition apply_manifest_cmd (namespace : option string) : list string :=
  match namespace with
  | Some (String _ _ as ns) => ["kubectl"; "apply"; "-n"; ns; "-f"; "-"]
  | _ => ["kubectl"; "apply"; "-f"; "-"]
  end.

Definition apply_manifest (yaml_text : string) (namespace : option string)
  : M E unit :=
  '(rc, out, err) <- popen_communicate (apply_manifest_cmd namespace)
                                       (Some yaml_text) ;;
  if negb (rc =? 0)%Z then raise (RuntimeError (PyStr.strip err))
  else ret tt.

Definition ensure_namespace (ns : string) : M E unit :=
  try_except (check_call ["kubectl"; "get"; "ns"; ns])
    (fun e => match e with
              | CalledProcessError _ _ =>
                  Some (check_call ["kubectl"; "create"; "ns"; ns])
              | _ => None
              end).

Definition get_pod_name_cmd (namespace selector : string) : list string :=
  ["kubectl"; "get"; "pods"; "-n"; namespace;
   "-l"; selector; "-o"; "jsonpath={.items[0].metadata.name}"].

Definition get_pod_name (namespace selector : string)
  : M E (option string) :=
  try_except
    (out <- check_output (get_pod_name_cmd namespace selector) ;;
     ret (or_none (PyStr.strip out)))
    (fun e => match e with
              | CalledProcessError _ _ => Some (ret None)
              | _ => None
              end).

Definition exec_in_pod_cmd (namespace pod command : string)
    (container : option string) : list string :=
  ["kubectl"; "exec"; "-n"; namespace; pod]
  ++ match container with
     | Some (String _ _ as c) => ["-c"; c]
     | _ => []
     end
  ++ ["--"; "sh"; "-c"; command].

Definition exec_in_pod (namespace pod command : string)
    (container : option string) : M E (Z * string * string) :=
  popen_communicate (exec_in_pod_cmd namespace pod command container) None.

Definition copy_from_pod (namespace pod remote_path local_path : string)
  : M E unit :=
  check_call ["kubectl"; "cp";
              (namespace ++ "/" ++ pod ++ ":" ++ remote_path)%string; local_path].
End WithEnv.
End KubeHelper.

Record EKSJMeterManager := {
  templates_dir : string;
  jmeter_namespace : string;
  monitoring_namespace : string;
  cluster_name : string
}.

(** [_default_manager = EKSJMeterManager()] *)
Definition get_default_manager : EKSJMeterManager :=
  {| templates_dir := "backend/templates";
     jmeter_namespace := "jmeter";
     monitoring_namespace := "monitoring";
     cluster_name := "jmeter-cluster" |}.

Definition template_suffixes : list string :=
  [".yaml.j2"; ".yml.j2"; ".yaml"; ".yml"].

(** The loop over the suffixes: the first that matches is cut off. *)
Fixpoint strip_first_suffix (sufs : list string) (base : string) : string :=
  match sufs with
  | [] => base
  | suf :: rest =>
      if PyStr.endswith suf base then PyStr.drop_last (String.length suf) base
      else strip_first_suffix rest base
  end.

Definition _is_cluster_scoped_template (name : string) : bool :=
  let base := strip_first_suffix template_suffixes (PyPath.path_name name) in
  String.eqb base "storageclass" || String.eqb base "storageclass-and-pvcs".

Definition manifest_files : list string :=
  [ "storageclass-and-pvcs.yaml";
    "jmeter-configmap.yaml.j2";
    "jmeter-master-deployment.yaml.j2";
    "jmeter-master-service.yaml.j2";
    "jmeter-slaves-statefulset.yaml.j2";
    "jmeter-slaves-service.yaml.j2";
    "jmeter-slaves-hpa.yaml.j2";
    "monitor-influx.yaml.j2";
    "monitor-grafana.yaml.j2" ].

(** The namespace a template is applied to ([None]: cluster-scoped). *)
Definition manifest_namespace (self : EKSJMeterManager) (f : string)
  : option string :=
  if _is_cluster_scoped_template f then None
  else if PyStr.startswith "monitor-" f then Some (monitoring_namespace self)
  else Some (jmeter_namespace self).

Definition kube_ready_cmd : list string := ["kubectl"; "get"; "nodes"].

Definition scale_slaves_cmd (self : EKSJMeterManager) (replicas : Z)
  : list string :=
  ["kubectl"; "scale"; "statefulset"; "jmeter-slaves"; "-n";
   jmeter_namespace self; ("--replicas=" ++ PyStr.str_of_Z replicas)%string].

Definition slave_pod (i : nat) : string :=
  ("jmeter-slaves-" ++ PyStr.str_of_nat i)%string.

Definition wait_for_slave_cmd (self : EKSJMeterManager) (i : nat)
    (timeout_sec : Z) : list string :=
  ["kubectl"; "wait"; "--for=condition=Ready"; ("pod/" ++ slave_pod i)%string; "-n";
   jmeter_namespace self;
   ("--timeout=" ++ PyStr.str_of_Z timeout_sec ++ "s")%string].

Definition delete_slaves_cmd (self : EKSJMeterManager) : list string :=
  ["kubectl"; "delete"; "pod"; "-n"; jmeter_namespace self;
   "-l"; "app=jmeter-slaves"].

Definition list_testplans_cmd : string :=
  "ls -1 /testplans/*.jmx 2>/dev/null | head -n 1".

Definition trigger_cmd : string :=
  "echo RUNNING > /tmp/test_status && rm -f /tmp/run_test && touch /tmp/run_test".

Definition get_status_cmd : string :=
  "cat /tmp/test_status 2>/dev/null || echo UNKNOWN".

(** [range(n)] *)
Definition range (n : Z) : list nat := seq 0 (Z.to_nat n).

Section WithEnv.
Context {E : Env}.
Variable self : EKSJMeterManager.

(** The body of [while True] in [_wait_for_kube_ready]; [fuel] bounds the
    number of probes the model follows. *)
Fixpoint kube_ready_loop (fuel : nat) (timeout start : Z) : M E unit :=
  match fuel with
  | O => out_of_fuel
  | S fuel' =>
      try_except (check_call kube_ready_cmd)
        (fun e => match e with
                  | CalledProcessError _ _ =>
                      Some (now <- time ;;
                            if (now - start >? timeout * ticks_per_second E)%Z
                            then raise (TimeoutError
                                   "Timeout waiting for EKS cluster to be ready")
                            else time_sleep 5 ;;;
                                 kube_ready_loop fuel' timeout start)
                  | _ => None
                  end)
  end.

Definition _wait_for_kube_ready (fuel : nat) (timeout : Z) : M E unit :=
  start <- time ;;
  kube_ready_loop fuel timeout start.

Definition create_cluster_cmd (region node_type : string)
    (ami ami_family : option string) (nodegroup_name : string)
    (min_nodes max_nodes : Z) : list string :=
  ["eksctl"; "create"; "cluster";
   "--name"; cluster_name self;
   "--region"; region;
   "--nodegroup-name"; nodegroup_name;
   "--node-type"; node_type;
   "--nodes"; PyStr.str_of_Z min_nodes;
   "--nodes-min"; PyStr.str_of_Z min_nodes;
   "--nodes-max"; PyStr.str_of_Z max_nodes;
   "--managed"]
  ++ match ami, ami_family with
     | Some (String _ _ as a), Some (String _ _ as f) =>
         ["--node-ami"; a; "--node-ami-family"; f]
     | _, _ => []
     end.

Definition create_cluster (fuel : nat) (region node_type : string)
    (ami ami_family : option string) (nodegroup_name : string)
    (min_nodes max_nodes : Z) : M E unit :=
  check_call (create_cluster_cmd region node_type ami ami_family
                                 nodegroup_name min_nodes max_nodes) ;;;
  _wait_for_kube_ready fuel 300 ;;;
  KubeHelper.ensure_namespace (jmeter_namespace self) ;;;
  KubeHelper.ensure_namespace (monitoring_namespace self).

Definition render_template (name : string) (ctx : context) : M E string :=
  jinja_render name ctx.

Fixpoint apply_files (files : list string) (ctx : context) : M E unit :=
  match files with
  | [] => ret tt
  | f :: rest =>
      present <- exists_path (PyPath.join (templates_dir self) f) ;;
      if negb present then apply_files rest ctx
      else
        yaml_text <- render_template f ctx ;;
        KubeHelper.apply_manifest yaml_text (manifest_namespace self f) ;;;
        apply_files rest ctx
  end.

Definition apply_jmeter_manifests (ctx : context) : M E unit :=
  apply_files manifest_files ctx.

Definition scale_slaves (replicas : Z) : M E unit :=
  check_call (scale_slaves_cmd self replicas).

Fixpoint wait_for_pods (pods : list nat) (timeout_sec : Z) : M E unit :=
  match pods with
  | [] => ret tt
  | i :: rest =>
      check_call (wait_for_slave_cmd self i timeout_sec) ;;;
      wait_for_pods rest timeout_sec
  end.

Definition wait_for_slaves (replicas : Z) (timeout_sec : Z) : M E unit :=
  wait_for_pods (range replicas) timeout_sec.

Definition master_container : option string := Some "jmeter-master".

Definition run_test (max_shards : Z) : M E unit :=
  call (delete_slaves_cmd self) ;;;
  scale_slaves max_shards ;;;
  wait_for_slaves max_shards 300 ;;;
  pod <- KubeHelper.get_pod_name (jmeter_namespace self) "app=jmeter-master" ;;
  match pod with
  | None => raise (RuntimeError "JMeter master pod NOT found")
  | Some pod =>
      KubeHelper.exec_in_pod (jmeter_namespace self) pod list_testplans_cmd
                             master_container ;;;
      '(rc, out, err) <- KubeHelper.exec_in_pod (jmeter_namespace self) pod
                                                trigger_cmd master_container ;;
      if negb (rc =? 0)%Z
      then raise (RuntimeError ("Failed to trigger JMeter in master: " ++ err)%string)
      else time_sleep 3
  end.

Definition get_status : M E string :=
  pod <- KubeHelper.get_pod_name (jmeter_namespace self) "app=jmeter-master" ;;
  match pod with
  | None => ret "UNKNOWN"
  | Some pod =>
      '(rc, out, err) <- KubeHelper.exec_in_pod (jmeter_namespace self) pod
                                                get_status_cmd None ;;
      ret (PyStr.strip out)
  end.

Definition fetch_results (dest : string) : M E string :=
  pod <- KubeHelper.get_pod_name (jmeter_namespace self) "app=jmeter-master" ;;
  match pod with
  | None => raise (RuntimeError "Master pod not found")
  | Some pod =>
      let local_dir := match PyPath.dirname dest with
                       | EmptyString => "."
                       | d => d
                       end in
      os_makedirs local_dir ;;;
      '(rc, out, err) <- KubeHelper.exec_in_pod (jmeter_namespace self) pod
            "ls -1 /results/*.jtl 2>/dev/null | head -n 1" None ;;
      remote <-
        (match PyStr.strip out with
         | EmptyString =>
             '(rc, out, err) <- KubeHelper.exec_in_pod (jmeter_namespace self)
                   pod "ls -1 /testplans/*.jtl 2>/dev/null | head -n 1" None ;;
             ret (PyStr.strip out)
         | r => ret r
         end) ;;
      match remote with
      | EmptyString => raise (RuntimeError "No JTL generated on master")
      | _ =>
          let local_path := PyPath.join local_dir (PyPath.basename remote) in
          KubeHelper.copy_from_pod (jmeter_namespace self) pod remote
                                   local_path ;;;
          ret local_path
      end
  end.

Definition delete_cluster_cmd : list string :=
  ["eksctl"; "delete"; "cluster"; "--name"; cluster_name self; "--force"].

Definition delete_cluster : M E unit :=
  try_except (check_call delete_cluster_cmd)
    (fun e => match e with
              | CalledProcessError _ _ =>
                  Some (raise (RuntimeError "EKS deletion failed"))
              | _ => None
              end).
End WithEnv.

End Manager.

(** ** [backend/main.py]: the HTTP facade *)

Module Main.
Import Effects Manager.
Local Open Scope py_scope.

(** [manager = get_default_manager()] *)
Definition manager : EKSJMeterManager := get_default_manager.

Definition TEST_STATUS_FILE : string := "/tmp/test_status".

Definition master_selector : string := "app=jmeter-master".

Definition reset_status_cmd : string := "rm -f " ++ TEST_STATUS_FILE.

Definition api_status_cmd : string :=
  "cat " ++ TEST_STATUS_FILE ++ " 2>/dev/null || echo RUNNING".

Definition grafana_cmd : list string :=
  ["kubectl"; "get"; "svc"; "grafana"; "-n"; jmeter_namespace manager;
   "-o"; "jsonpath={.status.loadBalancer.ingress[0].hostname}"].

(** The body of [POST /eks/create].  An integer field holds what
    [int(data.get(K, 1))] evaluates to: the number, or the exception [int]
    raises on the value sent. *)
Record create_request := {
  AWS_REGION : option string;
  NODE_INSTANCE_TYPE : option string;
  req_TESTPLAN_REPO : option string;
  req_MAX_SHARDS : Z + exn;
  req_THREADS : Z + exn;
  req_LOOP_COUNT : Z + exn;
  req_TARGET_BASE_URL : option string
}.

(** [GET /aws/regions] *)
Definition api_regions := AwsUtils.list_regions.

(** [GET /aws/instance-types] *)
Definition api_instance_types := AwsUtils.list_instance_types.

(** [GET /aws/instance-info] *)
Definition api_instance_info (instance_type : string)
    (describe : AwsUtils.aws_result (list AwsUtils.InstanceTypeInfo))
  : outcome AwsUtils.instance_info :=
  match AwsUtils.get_instance_info instance_type describe with
  | AwsUtils.Returned None => Raise (HTTPException 404 "Instance type not found")
  | AwsUtils.Returned (Some info) => Ret info
  | AwsUtils.Raised message => Raise (IndexError message)
  end.

(** [GET /aws/os-family] *)
Definition api_os_family := AwsUtils.detect_os_family.

Section WithEnv.
Context {E : Env}.

(** [str(e)] *)
Definition str_exn (e : exn) : string :=
  match e with
  | CalledProcessError cmd rc => called_process_error_str E cmd rc
  | OSError m => m
  | RuntimeError m => m
  | TimeoutError m => m
  | ValueError m => m
  | TemplateError m => m
| IndexError m => m
  | HTTPException status detail => PyStr.str_of_Z status ++ ": " ++ detail
  end.

(** [try: c  except Exception as e: raise HTTPException(500, str(e))] *)
Definition surface_500 {A} (c : M E A) : M E A :=
  try_except c (fun e => Some (raise (HTTPException 500 (str_exn e)))).

Definition py_int (v : Z + exn) : M E Z :=
  match v with
  | inl n => ret n
  | inr e => raise e
  end.

(** The [try] block of [POST /eks/create]. *)
Definition eks_create_body (fuel : nat) (region node_type : string)
    (data : create_request) : M E string :=
  create_cluster manager fuel region node_type None None "jmeter-nodes" 1 3 ;;;
  max_shards <- py_int (req_MAX_SHARDS data) ;;
  threads <- py_int (req_THREADS data) ;;
  loop_count <- py_int (req_LOOP_COUNT data) ;;
  apply_jmeter_manifests manager
    {| TESTPLAN_REPO := req_TESTPLAN_REPO data;
       MAX_SHARDS := max_shards;
       THREADS := threads;
       LOOP_COUNT := loop_count;
       TARGET_BASE_URL := req_TARGET_BASE_URL data;
       NAMESPACE := jmeter_namespace manager;
       HTTP_PORT := 8080;
       JMETER_RMI_PORT := 50000 |} ;;;
  ret "Cluster creation started".

(** [POST /eks/create] *)
Definition api_eks_create (fuel : nat) (data : create_request) : M E string :=
  match AWS_REGION data, NODE_INSTANCE_TYPE data with
  | Some (String _ _ as region), Some (String _ _ as node_type) =>
      surface_500 (eks_create_body fuel region node_type data)
  | _, _ =>
      raise (HTTPException 400 "AWS_REGION and NODE_INSTANCE_TYPE are required")
  end.

(** [POST /eks/delete] *)
Definition api_delete : M E string :=
  surface_500 (delete_cluster manager ;;; ret "Deletion triggered").

Definition _reset_status : M E unit :=
  pod <- KubeHelper.get_pod_name (jmeter_namespace manager) master_selector ;;
  match pod with
  | Some pod =>
      KubeHelper.exec_in_pod (jmeter_namespace manager) pod
                             reset_status_cmd None ;;;
      ret tt
  | None => ret tt
  end.

(** The [try] block of [POST /test/run]. *)
Definition run_body (shards : Z) : M E string :=
  _reset_status ;;;
  run_test manager shards ;;;
  ret ("Test started with " ++ PyStr.str_of_Z shards ++ " shard(s)")%string.

(** [POST /test/run]; [shards] is [int(data.get("MAX_SHARDS", 1))],
    evaluated before the [try]. *)
Definition api_run (shards : Z) : M E string := surface_500 (run_body shards).

(** [GET /test/status] *)
Definition api_status : M E string :=
  pod <- KubeHelper.get_pod_name (jmeter_namespace manager) master_selector ;;
  match pod with
  | None => raise (HTTPException 500 "Master pod not found")
  | Some pod =>
      '(rc, out, err) <- KubeHelper.exec_in_pod (jmeter_namespace manager) pod
                                                api_status_cmd None ;;
      ret (PyStr.strip out)
  end.

(** The [try] block of [GET /test/results]: the path served and the file
    name offered. *)
Definition results_body : M E (string * string) :=
  path <- fetch_results manager "./results/results.jtl" ;;
  ret (path, PyPath.basename path).

(** [GET /test/results] *)
Definition api_results : M E (string * string) := surface_500 results_body.

(** [GET /grafana/url]; the bare [except] catches everything. *)
Definition grafana : M E string :=
  try_except
    (out <- check_output grafana_cmd ;;
     ret ("http://" ++ PyStr.strip out ++ ":3000/d/jmeter-dashboard")%string)
    (fun _ => Some (raise (HTTPException 500 "Grafana not ready yet"))).
End WithEnv.

End Main.

(** ** The control pod as the backend sees it

    A model of the environment for the status convention: [kubectl] that
    finds (or not) the master pod, and a shell in that pod that knows the
    commands the backend sends.  The status file is absent or holds some
    text; nothing is assumed about who wrote it. *)

Module ControlPod.
Import Effects.

Record pod := {
  master_pod : option string;
  (** the container accepts [kubectl exec] *)
  reachable : bool;
  status_file : option string;
  run_test_flag : bool
}.

(** [cat FILE 2>/dev/null || echo WORD] *)
Definition cat_or_echo (file : option string) (word : string) : string :=
  match file with
  | Some content => content
  | None => word ++ String "010"%char EmptyString
  end.

Definition sh (command : string) (w : pod) : completed * pod :=
  if String.eqb command Manager.get_status_cmd then
    (Exited 0 (cat_or_echo (status_file w) "UNKNOWN") "", w)
  else if String.eqb command Main.api_status_cmd then
    (Exited 0 (cat_or_echo (status_file w) "RUNNING") "", w)
  else if String.eqb command Main.reset_status_cmd then
    (Exited 0 "" "", {| master_pod := master_pod w;
                        reachable := reachable w;
                        status_file := None;
                        run_test_flag := run_test_flag w |})
  else if String.eqb command Manager.trigger_cmd then
    (Exited 0 "" "",
     {| master_pod := master_pod w;
        reachable := reachable w;
        status_file := Some ("RUNNING" ++ String "010"%char EmptyString)%string;
        run_test_flag := true |})
  else (Exited 0 "" "", w).

Definition kubectl (argv : list string) (stdin : option string) (w : pod)
  : completed * pod :=
  match argv with
  | "kubectl" :: "get" :: "pods" :: _ =>
      match master_pod w with
      | Some name => (Exited 0 name "", w)
      | None => (Exited 1 "error: array index out of bounds" "", w)
      end
  | "kubectl" :: "exec" :: rest =>
      match master_pod w with
      | Some _ =>
          if reachable w then sh (last rest "") w
          else (Exited 1 "" "error: unable to upgrade connection", w)
      | None => (Exited 1 "" "Error from server (NotFound)", w)
      end
  | _ => (Exited 0 "" "", w)
  end.

Definition env : Env :=
  {| World := pod;
     run := kubectl;
     clock := fun _ => 0%Z;
     ticks_per_second := 1;
     sleep := fun _ w => w;
     path_exists := fun _ _ => true;
     makedirs := fun _ w => (None, w);
     render := fun name _ _ => inl name;
     called_process_error_str := PyStr.called_process_error_message |}.

Definition start (w : pod) : state env := @Build_state env w [].





End ControlPod.

(** ** A cluster that takes its time

    An environment in which time passes: every external call takes one
    second, a sleep takes as long as asked, and [kubectl get nodes] fails
    until the control plane is up at [ready_at]. *)

Module SlowCluster.
Import Effects.

Record cluster := { now : Z; ready_at : Z }.

Definition kubectl (argv : list string) (stdin : option string) (w : cluster)
  : completed * cluster :=
  (Exited (if (ready_at w <=? now w)%Z then 0 else 1) "" "",
   {| now := now w + 1; ready_at := ready_at w |}).

Definition env : Env :=
  {| World := cluster;
     run := kubectl;
     clock := now;
     ticks_per_second := 1;
     sleep := fun d w => {| now := now w + d; ready_at := ready_at w |};
     path_exists := fun _ _ => false;
     makedirs := fun _ w => (None, w);
     render := fun name _ _ => inl name;
     called_process_error_str := PyStr.called_process_error_message |}.

Definition start (t ready : Z) : state env :=
  @Build_state env {| now := t; ready_at := ready |} [].

End SlowCluster.

(** ** Orders and readings used to state the properties *)

Module Reading.
Import AwsUtils.


(** The invariant of [grouped]: the items of a group have the family the
    group is filed under. *)
Definition fam (x : item) : string := family (type x).
Definition flatten (g : groups) : list item := List.concat (map snd g).
Definition families_agree (g : groups) : Prop :=
  Forall (fun kl => Forall (fun x => fam x = fst kl) (snd kl)) g.


(** The three substrings that mark an Amazon Linux 2023 image. *)
Definition al2023_marks : list string :=
  ["amazon-eks-node"; "amazon linux 2023"; "al2023"].

Definition has_al2023_mark (text : string) : bool :=
  existsb (fun m => PyStr.contains m text) al2023_marks.

(** The text searched when name and description are joined with nothing
    in between. *)
Definition os_text_joined_directly (img : Image) : string :=
  PyStr.lower (get_or (Name img) "" ++ get_or (Description img) "").

End Reading.

(** ** Reading a trace *)

Module Trace.
Import Effects.

(** The process exited with return code 0. *)
Definition exited_ok (r : completed) : bool :=
  match r with
  | Exited rc _ _ => (rc =? 0)%Z
  | NotStarted _ => false
  end.

(** The shell command of a [kubectl exec ... -- sh -c COMMAND]. *)
Definition exec_command (argv : list string) : option string :=
  match argv with
  | "kubectl" :: "exec" :: rest => Some (last rest "")
  | _ => None
  end.

(** The start signal to the control pod: an exec of [trigger_cmd]. *)
Definition start_signal (ev : event) : bool :=
  match ev with
  | Ran argv _ _ =>
      match exec_command argv with
      | Some c => String.eqb c Manager.trigger_cmd
      | None => false
      end
  | Slept _ => false
  end.

(** An access to the remote status file: an exec whose shell command
    names [/tmp/test_status]. *)
Definition touches_status (ev : event) : bool :=
  match ev with
  | Ran argv _ _ =>
      match exec_command argv with
      | Some c => PyStr.contains Main.TEST_STATUS_FILE c
      | None => false
      end
  | Slept _ => false
  end.

Definition status_accesses (tr : list event) : nat :=
  List.length (filter touches_status tr).

(** The external invocations of a trace, in order, without their
    results. *)
Definition invocations (tr : list event) : list (list string) :=
  flat_map (fun ev => match ev with
                      | Ran argv _ _ => [argv]
                      | Slept _ => []
                      end) tr.

(** What [check_call] raises for a process that did not exit with 0. *)
Definition check_error (argv : list string) (r : completed) : exn :=
  match r with
  | Exited rc _ _ => CalledProcessError argv rc
  | NotStarted m => OSError m
  end.


(** The readiness wait for slave [i], with its result. *)
Definition waited (self : Manager.EKSJMeterManager) (timeout_sec : Z)
    (i : nat) (ev : event) : Prop :=
  exists r, ev = Ran (Manager.wait_for_slave_cmd self i timeout_sec) None r.




(** The commands of a complete [run_test], in order, for a master pod
    named [pod]. *)
Definition run_test_script (self : Manager.EKSJMeterManager) (n : Z)
    (pod : string) : list (list string) :=
  Manager.delete_slaves_cmd self
  :: Manager.scale_slaves_cmd self n
  :: map (fun i => Manager.wait_for_slave_cmd self i 300) (Manager.range n)
  ++ [Manager.KubeHelper.get_pod_name_cmd (Manager.jmeter_namespace self)
        "app=jmeter-master";
      Manager.KubeHelper.exec_in_pod_cmd (Manager.jmeter_namespace self) pod
        Manager.list_testplans_cmd Manager.master_container;
      Manager.KubeHelper.exec_in_pod_cmd (Manager.jmeter_namespace self) pod
        Manager.trigger_cmd Manager.master_container].


(** A program that, from any state, adds at most [n] accesses to the
    status file to the trace. *)
Definition accesses_at_most {E : Env} {A : Type} (n : nat) (c : M E A) : Prop :=
  forall s : state E,
    exists new, trace (snd (c s)) = trace s ++ new /\ status_accesses new <= n.

(** A command that is no access to the status file, however it ends. *)
Definition no_access (argv : list string) : Prop :=
  forall stdin r, touches_status (Ran argv stdin r) = false.


(** The trace of a readiness wait: each failed probe is followed by a
    sleep of five seconds, then comes the probe that ended the wait. *)
Definition probes (fails : list completed) (last : completed) : list event :=
  flat_map (fun r => [Ran Manager.kube_ready_cmd None r; Slept 5]) fails
  ++ [Ran Manager.kube_ready_cmd None last].

(** The process exited with a return code other than 0. *)
Definition exited_failing (r : completed) : Prop :=
  exists rc out err, r = Exited rc out err /\ rc <> 0%Z.


End Trace.

(** ** Further readings *)

Module MoreReading.
Import Effects.

(** The file names [_is_cluster_scoped_template] accepts: the two base
    names, bare or with one of the four suffixes. *)
Definition cluster_scoped_names : list string :=
  flat_map (fun base => map (fun suf => base ++ suf)%string
                            ("" :: Manager.template_suffixes))
           ["storageclass"; "storageclass-and-pvcs"].


(** [os.path.dirname(dest) or "."] *)
Definition local_dir (dest : string) : string :=
  match PyPath.dirname dest with
  | EmptyString => "."
  | d => d
  end.

(** An environment without state, in which every command is answered
    from a table. *)
Definition scripted (answer : list string -> completed) : Env :=
  {| World := unit;
     run := fun argv _ w => (answer argv, w);
     clock := fun _ => 0%Z;
     ticks_per_second := 1;
     sleep := fun _ w => w;
     path_exists := fun _ _ => true;
     makedirs := fun _ w => (None, w);
     render := fun name _ _ => inl name;
     called_process_error_str := PyStr.called_process_error_message |}.

Definition scripted_start (answer : list string -> completed)
  : state (scripted answer) :=
  @Build_state (scripted answer) tt [].

(** A pod [master-0] with one result file; every other command succeeds
    and prints nothing. *)
Definition pod_with_results (argv : list string) : completed :=
  match argv with
  | "kubectl" :: "get" :: "pods" :: _ => Exited 0 "master-0" ""
  | ["kubectl"; "exec"; _; _; _; "--"; "sh"; "-c";
     "ls -1 /results/*.jtl 2>/dev/null | head -n 1"] =>
      Exited 0 ("/results/run1.jtl" ++ String "010"%char EmptyString) ""
  | _ => Exited 0 "" ""
  end.


(** The process of an event exited with return code 0. *)
Definition ran_ok (ev : event) : Prop :=
  match ev with
  | Ran _ _ r => Trace.exited_ok r = true
  | Slept _ => True
  end.

(** The events of an [ensure_namespace] that returned: the namespace was
    found, or it was not found and then created. *)
Definition ensured (ns : string) (evs : list event) : Prop :=
  (exists r, evs = [Ran ["kubectl"; "get"; "ns"; ns] None r]
             /\ Trace.exited_ok r = true)
  \/ (exists r r', evs = [Ran ["kubectl"; "get"; "ns"; ns] None r;
                          Ran ["kubectl"; "create"; "ns"; ns] None r']
                   /\ Trace.exited_failing r /\ Trace.exited_ok r' = true).

(** The exception of the first integer field of the request that [int]
    rejects, in the order the source converts them. *)
Definition first_bad_int (data : Main.create_request) : option exn :=
  match Main.req_MAX_SHARDS data with
  | inr e => Some e
  | inl _ =>
      match Main.req_THREADS data with
      | inr e => Some e
      | inl _ =>
          match Main.req_LOOP_COUNT data with
          | inr e => Some e
          | inl _ => None
          end
      end
  end.


(** A world in which every command succeeds and prints nothing. *)
Definition all_is_well (argv : list string) : completed := Exited 0 "" "".

End MoreReading.

(** * Properties *)

(** ** The order of strings and the sort *)

Module PyStrFacts.
Import PyStr.

Lemma leb_iff (a b : string) : le a b <-> a = b \/ String_as_OT.lt a b.
Proof.
  unfold le, String.leb.
  destruct (String.compare a b) eqn:C; split; intro H; try reflexivity.
  - left. now apply String_as_OT.cmp_eq.
  - right. now apply String_as_OT.cmp_lt.
  - discriminate.
  - destruct H as [H | H].
    + apply String_as_OT.cmp_eq in H. unfold String_as_OT.cmp in H. congruence.
    + apply String_as_OT.cmp_lt in H. unfold String_as_OT.cmp in H. congruence.
Qed.

Lemma ltb_iff (a b : string) : lt a b <-> String_as_OT.lt a b.
Proof.
  unfold lt, String.ltb. split; intro H.
  - apply String_as_OT.cmp_lt. unfold String_as_OT.cmp.
    destruct (String.compare a b); congruence.
  - apply String_as_OT.cmp_lt in H. unfold String_as_OT.cmp in H. now rewrite H.
Qed.

Lemma le_refl (a : string) : le a a.
Proof. apply leb_iff. now left. Qed.


Lemma le_total (a b : string) : le a b \/ le b a.
Proof. apply String.leb_total. Qed.

Lemma not_le_lt (a b : string) : String.leb a b = false -> lt b a.
Proof.
  intro H. apply ltb_iff.
  destruct (le_total a b) as [L | L]; [unfold le in L; congruence |].
  apply leb_iff in L. destruct L as [-> | L]; [| exact L].
  pose proof (le_refl a) as R. unfold le in R. congruence.
Qed.

Lemma lt_le (a b : string) : lt a b -> le a b.
Proof. intro H. apply leb_iff. right. now apply ltb_iff. Qed.

Lemma lt_irrefl (a : string) : ~ lt a a.
Proof.
  intro H. apply ltb_iff in H. apply String_as_OT.lt_not_eq in H.
  apply H. reflexivity.
Qed.


Lemma lt_le_trans (a b c : string) : lt a b -> le b c -> lt a c.
Proof.
  intros H1 H2. apply ltb_iff in H1. apply leb_iff in H2. apply ltb_iff.
  destruct H2 as [<- | H2]; [assumption |].
  eapply String_as_OT.lt_trans; eassumption.
Qed.

End PyStrFacts.

Module PySortFacts.
Import PySort.

Section Sorting.
Context {A : Type}.
Variable leb : A -> A -> bool.
Hypothesis leb_total : forall a b, leb a b = true \/ leb b a = true.
Hypothesis leb_trans :
  forall a b c, leb a b = true -> leb b c = true -> leb a c = true.

Let R (a b : A) : Prop := leb a b = true.




End Sorting.









End PySortFacts.

(** ** [aws_utils]: the listings *)

Module AwsUtilsFacts.
Import AwsUtils Reading.

Lemma setdefault_append_key_in (k : string) (x : item) (g : groups) (k' : string) :
  In k' (keys (setdefault_append k x g)) <-> k' = k \/ In k' (keys g).
Proof.
  induction g as [| [k0 l] g IH]; simpl.
  - intuition congruence.
  - destruct (String.eqb_spec k0 k) as [-> | N]; simpl.
    + intuition congruence.
    + rewrite IH. intuition congruence.
Qed.

Lemma setdefault_append_nodup (k : string) (x : item) (g : groups) :
  NoDup (keys g) -> NoDup (keys (setdefault_append k x g)).
Proof.
  induction g as [| [k0 l] g IH]; simpl; intro ND.
  - repeat constructor. intros [].
  - inversion ND as [| ? ? Hn ND']; subst.
    destruct (String.eqb_spec k0 k) as [-> | N]; simpl.
    + now constructor.
    + constructor; [| now apply IH].
      rewrite setdefault_append_key_in. intros [-> | H]; [now apply N | now apply Hn].
Qed.

Lemma setdefault_append_families (x : item) (g : groups) :
  families_agree g -> families_agree (setdefault_append (fam x) x g).
Proof.
  unfold families_agree.
  induction g as [| [k0 l] g IH]; simpl; intro F.
  - repeat constructor.
  - inversion F as [| ? ? Hl F']; subst. simpl in Hl.
    destruct (String.eqb_spec k0 (fam x)) as [-> | N].
    + constructor; [| exact F']. simpl.
      apply Forall_app. split; [exact Hl | repeat constructor].
    + constructor; [exact Hl | now apply IH].
Qed.

Lemma setdefault_append_flatten (k : string) (x : item) (g : groups) :
  Permutation (flatten (setdefault_append k x g)) (x :: flatten g).
Proof.
  unfold flatten.
  induction g as [| [k0 l] g IH]; simpl.
  - reflexivity.
  - destruct (String.eqb k0 k); simpl.
    + rewrite <- app_assoc. simpl.
      symmetry. apply Permutation_middle.
    + rewrite IH. symmetry. apply Permutation_middle.
Qed.

Lemma group_fold_invariant (items : list item) (g : groups) :
  NoDup (keys g) -> families_agree g ->
  let g' := fold_left (fun g x => setdefault_append (fam x) x g) items g in
  NoDup (keys g') /\ families_agree g'
  /\ Permutation (flatten g') (flatten g ++ items).
Proof.
  revert g. induction items as [| x t IH]; intros g ND F; simpl.
  - rewrite app_nil_r. auto.
  - destruct (IH (setdefault_append (fam x) x g)) as (ND' & F' & P).
    + now apply setdefault_append_nodup.
    + now apply setdefault_append_families.
    + repeat split; [exact ND' | exact F' |].
      rewrite P, setdefault_append_flatten. apply Permutation_middle.
Qed.

Lemma group_items_invariant (items : list item) :
  NoDup (keys (group_items items)) /\ families_agree (group_items items)
  /\ Permutation (flatten (group_items items)) items.
Proof.
  apply (group_fold_invariant items []); constructor.
Qed.







(** What [list_instance_types] does on a small response with two families
    and a type without lower-case prefix. *)
Example list_instance_types_sample :
  map type (list_instance_types (AwsOk
    [[ {| InstanceType := "m5.xlarge"; SupportedArchitectures := None;
          DefaultVCpus := 4; SizeInMiB := 16384 |};
       {| InstanceType := "c5.large"; SupportedArchitectures := None;
          DefaultVCpus := 2; SizeInMiB := 4096 |} ];
     [ {| InstanceType := "mac1.metal"; SupportedArchitectures := None;
          DefaultVCpus := 12; SizeInMiB := 32768 |};
       {| InstanceType := "m5.large"; SupportedArchitectures := None;
          DefaultVCpus := 2; SizeInMiB := 8192 |} ]]))
  = ["c5.large"; "m5.large"; "m5.xlarge"; "mac1.metal"].
Proof. reflexivity. Qed.


(** C9 as written fails: the name and the description are joined with a
    space.  An image named [Amazon] and described as [Linux 2023 ...] is
    detected, though name and description put together with nothing in
    between hold none of the three marks. *)
Lemma detect_os_family_joined_directly_differs :
  let img := {| ImageId := "ami-0"; CreationDate := "2024-01-01T00:00:00.000Z";
                Name := Some "Amazon"; Architecture := None;
                Description := Some "Linux 2023 base image" |} in
  os_text_joined_directly img = "amazonlinux 2023 base image"
  /\ has_al2023_mark (os_text_joined_directly img) = false
  /\ detect_os_family (AwsOk [img]) = "AmazonLinux2023".
Proof. repeat split. Qed.

(** C9, amended: the result is one of the two family names, it is
    [Unknown] when the lookup fails or returns no image, and otherwise it
    is [AmazonLinux2023] exactly when the lower-cased text "name, one
    space, description" holds one of the three marks. *)
Theorem detect_os_family_total :
  (forall resp, detect_os_family resp = "AmazonLinux2023"
                \/ detect_os_family resp = "Unknown")
  /\ (forall message, detect_os_family (AwsError message) = "Unknown")
  /\ detect_os_family (AwsOk []) = "Unknown"
  /\ (forall img rest,
        os_text img
        = PyStr.lower (get_or (Name img) "" ++ " " ++ get_or (Description img) "")
        /\ (detect_os_family (AwsOk (img :: rest)) = "AmazonLinux2023"
            <-> has_al2023_mark (os_text img) = true)
        /\ (detect_os_family (AwsOk (img :: rest)) = "Unknown"
            <-> has_al2023_mark (os_text img) = false)).
Proof.
  assert (Shape : forall img rest,
            detect_os_family (AwsOk (img :: rest))
            = if has_al2023_mark (os_text img) then "AmazonLinux2023" else "Unknown").
  { intros img rest. unfold detect_os_family, has_al2023_mark, al2023_marks.
    simpl existsb. rewrite orb_false_r, orb_assoc. reflexivity. }
  split; [| split; [| split]].
  - intros [[| img rest] | m]; try (now right).
    rewrite Shape. destruct (has_al2023_mark _); auto.
  - reflexivity.
  - reflexivity.
  - intros img rest. rewrite Shape. split; [reflexivity |].
    destruct (has_al2023_mark _); split; split; congruence.
Qed.

End AwsUtilsFacts.

(** ** The run coordinator *)

Module ManagerFacts.
Import Effects Manager Trace.
Local Open Scope py_scope.

Ltac msimpl := cbn [fst snd world trace negb ret raise out_of_fuel] in *.

(** Follow the next external call of the goal, by cases on how it ends. *)
Ltac run_step :=
  match goal with
  | |- context [run ?E ?argv ?i ?w] =>
      let r := fresh "r" in
      let w' := fresh "w" in
      let H := fresh "Hrun" in
      destruct (run E argv i w) as [r w'] eqn:H; msimpl
  end.

Ltac by_result r :=
  let rc := fresh "rc" in
  let Hrc := fresh "Hrc" in
  destruct r as [rc ? ? | ?]; msimpl;
  [ destruct (rc =? 0)%Z eqn:Hrc; msimpl | ].

Section WithEnv.
Context {E : Env}.
Variable self : EKSJMeterManager.


Lemma waited_not_status (t : Z) (pods : list nat) (waits : list event) :
  Forall2 (waited self t) pods waits -> filter touches_status waits = [].
Proof.
  induction 1 as [| i ev pods waits [r ->] _ IH]; [reflexivity |].
  simpl. exact IH.
Qed.





End WithEnv.

(** A run on a control pod that answers: the commands in order, the start
    signal last. *)
Example run_test_on_control_pod :
  let w := {| ControlPod.master_pod := Some "jmeter-master-0";
              ControlPod.reachable := true;
              ControlPod.status_file := None;
              ControlPod.run_test_flag := false |} in
  let run := run_test (E:=ControlPod.env) get_default_manager 2 (ControlPod.start w) in
  fst run = Ret tt
  /\ invocations (trace (snd run))
     = run_test_script get_default_manager 2 "jmeter-master-0"
  /\ map start_signal (trace (snd run))
     = [false; false; false; false; false; false; true; false]
  /\ ControlPod.status_file (world (snd run)) = Some "RUNNING
".
Proof. repeat split. Qed.

End ManagerFacts.

(** ** No command twice, and the one loop that probes again *)

Module RetryFacts.
Import Effects Manager Trace ManagerFacts.


Section WithEnv.
Context {E : Env}.
Variable self : EKSJMeterManager.






End WithEnv.

Section NoRetry.
Context {E : Env}.
Variable self : EKSJMeterManager.


End NoRetry.


End RetryFacts.

(** ** Accesses to the status file *)

Module AccessFacts.
Import Effects Manager Trace ManagerFacts.
Local Open Scope py_scope.

Create HintDb accesses.

Section WithEnv.
Context {E : Env}.

Lemma status_accesses_app (a b : list event) :
  status_accesses (a ++ b) = status_accesses a + status_accesses b.
Proof. unfold status_accesses. now rewrite filter_app, length_app. Qed.

Lemma adds_nothing {A} (n : nat) (c : M E A) :
  (forall s, trace (snd (c s)) = trace s) -> accesses_at_most n c.
Proof.
  intros Same s. exists []. rewrite app_nil_r.
  split; [apply Same | unfold status_accesses; simpl; lia].
Qed.

Lemma adds_weaken {A} (n m : nat) (c : M E A) :
  n <= m -> accesses_at_most n c -> accesses_at_most m c.
Proof.
  intros Le Hc s. destruct (Hc s) as (new & Tr & Le').
  exists new. split; [exact Tr | lia].
Qed.

Lemma adds_ret {A} (n : nat) (a : A) : accesses_at_most n (ret (E:=E) a).
Proof. now apply adds_nothing. Qed.

Lemma adds_raise {A} (n : nat) (e : exn) : accesses_at_most n (raise (E:=E) (A:=A) e).
Proof. now apply adds_nothing. Qed.

Lemma adds_out_of_fuel {A} (n : nat) : accesses_at_most n (out_of_fuel (E:=E) (A:=A)).
Proof. now apply adds_nothing. Qed.

Lemma adds_time (n : nat) : accesses_at_most n (time (E:=E)).
Proof. now apply adds_nothing. Qed.

Lemma adds_exists_path (n : nat) (p : string) : accesses_at_most n (exists_path (E:=E) p).
Proof. now apply adds_nothing. Qed.

Lemma adds_makedirs (n : nat) (p : string) : accesses_at_most n (os_makedirs (E:=E) p).
Proof.
  apply adds_nothing. intro s. unfold os_makedirs.
  destruct (makedirs E p (world s)) as [[m |] w]; reflexivity.
Qed.

Lemma adds_render (n : nat) (name : string) (ctx : context) :
  accesses_at_most n (jinja_render (E:=E) name ctx).
Proof.
  apply adds_nothing. intro s. unfold jinja_render.
  destruct (render E name ctx (world s)); reflexivity.
Qed.

Lemma adds_sleep (n : nat) (d : Z) : accesses_at_most n (time_sleep (E:=E) d).
Proof.
  intro s. exists [Slept d].
  split; [reflexivity | unfold status_accesses; simpl; lia].
Qed.

Lemma adds_bind {A B} (n m : nat) (c : M E A) (k : A -> M E B) :
  accesses_at_most n c -> (forall a, accesses_at_most m (k a)) ->
  accesses_at_most (n + m) (bind c k).
Proof.
  intros Hc Hk s. unfold bind.
  destruct (Hc s) as (new & Tr & Le).
  destruct (c s) as [[a | e |] s1]; cbn [snd] in *.
  - destruct (Hk a s1) as (new' & Tr' & Le').
    exists (new ++ new'). rewrite Tr', Tr, app_assoc, status_accesses_app.
    split; [reflexivity | lia].
  - exists new. split; [exact Tr | lia].
  - exists new. split; [exact Tr | lia].
Qed.

Lemma adds_try {A} (n m : nat) (c : M E A) (h : exn -> option (M E A)) :
  accesses_at_most n c ->
  (forall e handler, h e = Some handler -> accesses_at_most m handler) ->
  accesses_at_most (n + m) (try_except c h).
Proof.
  intros Hc Hh s. unfold try_except.
  destruct (Hc s) as (new & Tr & Le).
  destruct (c s) as [[a | e |] s1]; cbn [snd] in *.
  - exists new. split; [exact Tr | lia].
  - destruct (h e) as [handler |] eqn:He.
    + destruct (Hh e handler He s1) as (new' & Tr' & Le').
      exists (new ++ new'). rewrite Tr', Tr, app_assoc, status_accesses_app.
      split; [reflexivity | lia].
    + exists new. split; [exact Tr | lia].
  - exists new. split; [exact Tr | lia].
Qed.

Lemma adds_run (n : nat) (argv : list string) (stdin : option string) :
  accesses_at_most (S n) (run_process (E:=E) argv stdin).
Proof.
  intro s. unfold run_process.
  destruct (run E argv stdin (world s)) as [r w].
  exists [Ran argv stdin r]. split; [reflexivity |].
  unfold status_accesses. cbn [filter].
  destruct (touches_status (Ran argv stdin r)); cbn [List.length]; lia.
Qed.

Lemma adds_run_quiet (n : nat) (argv : list string) (stdin : option string) :
  no_access argv -> accesses_at_most n (run_process (E:=E) argv stdin).
Proof.
  intros Quiet s. unfold run_process.
  destruct (run E argv stdin (world s)) as [r w].
  exists [Ran argv stdin r]. split; [reflexivity |].
  unfold status_accesses. cbn [filter]. rewrite Quiet. cbn [List.length]. lia.
Qed.
End WithEnv.

#[local] Hint Resolve adds_ret adds_raise adds_out_of_fuel adds_time
  adds_exists_path adds_makedirs adds_render adds_sleep : accesses.

(** One step that costs nothing, then the rest. *)
Ltac free := eapply (adds_bind 0); [ | intros ].
(** One step that may access the file once, then the rest. *)
Ltac paid := eapply (adds_bind 1); [ | intros ].
Ltac leaf :=
  solve [ repeat match goal with
                 | |- accesses_at_most _ (match ?x with _ => _ end) => destruct x
                 | |- accesses_at_most _ (if ?x then _ else _) => destruct x
                 end;
          auto with accesses ].

Section WithEnv.
Context {E : Env}.

Lemma adds_check_call (n : nat) (argv : list string) :
  no_access argv -> accesses_at_most n (check_call (E:=E) argv).
Proof.
  intro Q. unfold check_call. free; [now apply adds_run_quiet | leaf].
Qed.

Lemma adds_call (n : nat) (argv : list string) :
  no_access argv -> accesses_at_most n (call (E:=E) argv).
Proof.
  intro Q. unfold call. free; [now apply adds_run_quiet | leaf].
Qed.

Lemma adds_check_output (n : nat) (argv : list string) :
  no_access argv -> accesses_at_most n (check_output (E:=E) argv).
Proof.
  intro Q. unfold check_output. free; [now apply adds_run_quiet | leaf].
Qed.

Lemma adds_popen_quiet (n : nat) (argv : list string) (input : option string) :
  no_access argv -> accesses_at_most n (popen_communicate (E:=E) argv input).
Proof.
  intro Q. unfold popen_communicate. free; [now apply adds_run_quiet | leaf].
Qed.

Lemma adds_popen (n : nat) (argv : list string) (input : option string) :
  accesses_at_most (S n) (popen_communicate (E:=E) argv input).
Proof.
  unfold popen_communicate.
  apply (adds_weaken (S n + 0)); [lia |].
  apply adds_bind; [apply adds_run | intros; leaf].
Qed.
End WithEnv.

#[local] Hint Resolve adds_check_call adds_call adds_check_output
  adds_popen_quiet : accesses.

Ltac quiet := solve [ intros ? ?; reflexivity ].

Section Endpoints.
Context {E : Env}.
Variable self : EKSJMeterManager.

Lemma adds_get_pod_name (n : nat) (ns selector : string) :
  accesses_at_most n (KubeHelper.get_pod_name (E:=E) ns selector).
Proof.
  unfold KubeHelper.get_pod_name.
  apply (adds_weaken (0 + n)); [lia |]. apply adds_try.
  - free; [apply adds_check_output; quiet | leaf].
  - intros e handler H. destruct e; inversion H. leaf.
Qed.

Lemma adds_exec_quiet (n : nat) (ns pod command : string)
    (container : option string) :
  PyStr.contains Main.TEST_STATUS_FILE command = false ->
  accesses_at_most n (KubeHelper.exec_in_pod (E:=E) ns pod command container).
Proof.
  intro Q. unfold KubeHelper.exec_in_pod. apply adds_popen_quiet.
  intros stdin r. unfold touches_status, KubeHelper.exec_in_pod_cmd.
  destruct container as [[| c cs] |]; simpl; exact Q.
Qed.

Lemma adds_exec (n : nat) (ns pod command : string) (container : option string) :
  accesses_at_most (S n) (KubeHelper.exec_in_pod (E:=E) ns pod command container).
Proof. apply adds_popen. Qed.

Lemma adds_wait_for_pods (n : nat) (pods : list nat) (t : Z) :
  accesses_at_most n (wait_for_pods (E:=E) self pods t).
Proof.
  induction pods as [| i pods IH]; cbn [wait_for_pods]; [leaf |].
  apply (adds_weaken (0 + n)); [lia |].
  apply adds_bind; [apply adds_check_call; quiet | intros; exact IH].
Qed.

Lemma adds_run_test (shards : Z) :
  accesses_at_most 1 (run_test (E:=E) self shards).
Proof.
  unfold run_test, scale_slaves, wait_for_slaves.
  free; [apply adds_call; quiet |].
  free; [apply adds_check_call; quiet |].
  free; [apply adds_wait_for_pods |].
  free; [apply adds_get_pod_name |].
  destruct a2 as [pod |]; [| leaf].
  free; [now apply adds_exec_quiet |].
  paid; [apply adds_exec |].
  destruct a3 as [[rc out] err]. leaf.
Qed.

Lemma adds_get_status : accesses_at_most 1 (get_status (E:=E) self).
Proof.
  unfold get_status.
  free; [apply adds_get_pod_name |].
  destruct a as [pod |]; [| leaf].
  paid; [apply adds_exec |].
  destruct a as [[rc out] err]. leaf.
Qed.

Lemma adds_fetch_results (dest : string) :
  accesses_at_most 0 (fetch_results (E:=E) self dest).
Proof.
  unfold fetch_results.
  free; [apply adds_get_pod_name |].
  destruct a as [pod |]; [| leaf].
  free; [leaf |].
  free; [now apply adds_exec_quiet |].
  destruct a0 as [[rc out] err].
  free.
  - destruct (PyStr.strip out); [| leaf].
    free; [now apply adds_exec_quiet |].
    destruct a0 as [[rc' out'] err']. leaf.
  - destruct a0; [leaf |].
    free; [| leaf].
    unfold KubeHelper.copy_from_pod. apply adds_check_call. quiet.
Qed.

Lemma adds_delete_cluster : accesses_at_most 0 (delete_cluster (E:=E) self).
Proof.
  unfold delete_cluster. apply (adds_try 0 0).
  - apply adds_check_call. quiet.
  - intros e handler H. destruct e; inversion H. leaf.
Qed.

Lemma adds_kube_ready_loop (fuel : nat) (timeout start : Z) :
  accesses_at_most 0 (kube_ready_loop (E:=E) fuel timeout start).
Proof.
  induction fuel as [| fuel IH]; cbn [kube_ready_loop]; [leaf |].
  apply (adds_try 0 0).
  - apply adds_check_call. quiet.
  - intros e handler H. destruct e; inversion H.
    free; [leaf |].
    destruct (_ >? _)%Z; [leaf |].
    free; [leaf | exact IH].
Qed.

Lemma adds_ensure_namespace (ns : string) :
  accesses_at_most 0 (KubeHelper.ensure_namespace (E:=E) ns).
Proof.
  unfold KubeHelper.ensure_namespace. apply (adds_try 0 0).
  - apply adds_check_call. quiet.
  - intros e handler H. destruct e; inversion H.
    apply adds_check_call. quiet.
Qed.

Lemma adds_create_cluster (fuel : nat) (region node_type : string)
    (ami ami_family : option string) (nodegroup_name : string)
    (min_nodes max_nodes : Z) :
  accesses_at_most 0
    (create_cluster (E:=E) self fuel region node_type ami ami_family
                    nodegroup_name min_nodes max_nodes).
Proof.
  unfold create_cluster, _wait_for_kube_ready.
  free; [apply adds_check_call; quiet |].
  free; [free; [leaf | apply adds_kube_ready_loop] |].
  free; apply adds_ensure_namespace.
Qed.

Lemma adds_apply_files (files : list string) (ctx : context) :
  accesses_at_most 0 (apply_files (E:=E) self files ctx).
Proof.
  induction files as [| f files IH]; cbn [apply_files]; [leaf |].
  free; [leaf |].
  destruct (negb a); [exact IH |].
  free; [unfold render_template; leaf |].
  free; [| exact IH].
  unfold KubeHelper.apply_manifest.
  free.
  - apply adds_popen_quiet. intros stdin r.
    unfold KubeHelper.apply_manifest_cmd.
    destruct (manifest_namespace self f) as [[| c cs] |]; reflexivity.
  - destruct a1 as [[rc out] err]. leaf.
Qed.
End Endpoints.

(** C4 as written fails: on a control pod that answers, [/test/run]
    accesses the status file twice, once to remove it and once to write
    [RUNNING]. *)
Lemma api_run_accesses_status_twice :
  let w := {| ControlPod.master_pod := Some "jmeter-master-0";
              ControlPod.reachable := true;
              ControlPod.status_file := Some "FINISHED";
              ControlPod.run_test_flag := false |} in
  let tr := trace (snd (Main.api_run (E:=ControlPod.env) 1 (ControlPod.start w))) in
  filter touches_status tr
  = [Ran ["kubectl"; "exec"; "-n"; "jmeter"; "jmeter-master-0";
          "--"; "sh"; "-c"; "rm -f /tmp/test_status"]
         None (Exited 0 "" "");
     Ran ["kubectl"; "exec"; "-n"; "jmeter"; "jmeter-master-0";
          "-c"; "jmeter-master"; "--"; "sh"; "-c";
          "echo RUNNING > /tmp/test_status && rm -f /tmp/run_test && touch /tmp/run_test"]
         None (Exited 0 "" "")]
  /\ status_accesses tr = 2.
Proof. split; reflexivity. Qed.

(** C4, amended: a request accesses the status file at most once, except
    [/test/run], which accesses it at most twice; [/test/results],
    [/eks/create], [/eks/delete] and [/grafana/url] never access it. *)
Theorem status_accesses_per_request :
  forall E : Env,
    (forall shards, accesses_at_most (E:=E) 2 (Main.api_run shards))
    /\ (forall shards, accesses_at_most (E:=E) 1 (run_test Main.manager shards))
    /\ accesses_at_most (E:=E) 1 Main._reset_status
    /\ accesses_at_most (E:=E) 1 Main.api_status
    /\ accesses_at_most (E:=E) 1 (get_status Main.manager)
    /\ accesses_at_most (E:=E) 0 Main.api_results
    /\ accesses_at_most (E:=E) 0 Main.api_delete
    /\ accesses_at_most (E:=E) 0 Main.grafana
    /\ (forall fuel data, accesses_at_most (E:=E) 0 (Main.api_eks_create fuel data)).
Proof.
  intro E.
  assert (Reset : accesses_at_most (E:=E) 1 Main._reset_status).
  { unfold Main._reset_status.
    free; [apply adds_get_pod_name |].
    destruct a as [pod |]; [| leaf].
    paid; [apply adds_exec | leaf]. }
  assert (Surface : forall A n (c : M E A),
            accesses_at_most n c -> accesses_at_most n (Main.surface_500 c)).
  { intros A n c Hc. unfold Main.surface_500.
    apply (adds_weaken (n + 0)); [lia |]. apply adds_try; [exact Hc |].
    intros e handler H. inversion H. leaf. }
  split; [| split; [| split; [| split; [| split; [| split; [| split; [| split]]]]]]].
  - intro shards. unfold Main.api_run, Main.run_body. apply Surface.
    paid; [exact Reset |].
    paid; [apply adds_run_test | leaf].
  - intro shards. apply adds_run_test.
  - exact Reset.
  - unfold Main.api_status.
    free; [apply adds_get_pod_name |].
    destruct a as [pod |]; [| leaf].
    paid; [apply adds_exec |].
    destruct a as [[rc out] err]. leaf.
  - apply adds_get_status.
  - unfold Main.api_results, Main.results_body. apply Surface.
    free; [apply adds_fetch_results | leaf].
  - unfold Main.api_delete. apply Surface.
    free; [apply adds_delete_cluster | leaf].
  - unfold Main.grafana. apply (adds_try 0 0).
    + free; [apply adds_check_output; quiet | leaf].
    + intros e handler H. inversion H. leaf.
  - intros fuel data. unfold Main.api_eks_create.
    destruct (Main.AWS_REGION data) as [[| c1 r1] |]; try leaf.
    destruct (Main.NODE_INSTANCE_TYPE data) as [[| c2 r2] |]; try leaf.
    apply Surface. unfold Main.eks_create_body.
    free; [apply adds_create_cluster |].
    free; [unfold Main.py_int; leaf |].
    free; [unfold Main.py_int; leaf |].
    free; [unfold Main.py_int; leaf |].
    free; [apply adds_apply_files | leaf].
Qed.

End AccessFacts.

(** ** The wait for the cluster *)

Module ReadinessFacts.
Import Effects Manager Trace ManagerFacts.
Local Open Scope Z_scope.

Section TimeAdvances.
Context {E : Env}.
Variable self : EKSJMeterManager.

(** Time advances: the clock has a resolution, no external call sets it
    back, and a sleep lasts at least as long as asked. *)
Hypothesis resolution : 0 < ticks_per_second E.
Hypothesis run_takes_time :
  forall argv stdin w, clock E w <= clock E (snd (run E argv stdin w)).
Hypothesis sleep_takes_time :
  forall d w, clock E w + d * ticks_per_second E <= clock E (sleep E d w).



End TimeAdvances.


(** The same wait, followed to its end: three probes, five seconds apart,
    then [TimeoutError]. *)
Example wait_for_kube_ready_times_out :
  let run := _wait_for_kube_ready (E:=SlowCluster.env) 4 10 (SlowCluster.start 0 1000) in
  fst run = Raise (TimeoutError "Timeout waiting for EKS cluster to be ready")
  /\ trace (snd run)
     = probes [Exited 1 "" ""; Exited 1 "" ""] (Exited 1 "" "")
  /\ SlowCluster.now (world (snd run)) = 13.
Proof. repeat split. Qed.

End ReadinessFacts.

(** ** The manifests *)

Module ManifestFacts.
Import Effects Manager Trace ManagerFacts.

Section Routing.
Context {E : Env}.
Variable self : EKSJMeterManager.


(** Running [kubectl] neither creates nor removes a template. *)
Hypothesis templates_stay :
  forall argv stdin w p,
    path_exists E p (snd (run E argv stdin w)) = path_exists E p w.


End Routing.


End ManifestFacts.

(** ** The status convention *)

Module StatusFacts.
Import Effects Manager ControlPod.


(** A status file with other text is passed on as it is. *)
Example status_read_passes_content_on :
  let w := {| master_pod := Some "jmeter-master-0";
              reachable := true;
              status_file := Some "PAUSED";
              run_test_flag := true |} in
  fst (get_status (E:=env) Main.manager (start w)) = Ret "PAUSED"
  /\ fst (Main.api_status (E:=env) (start w)) = Ret "PAUSED".
Proof. split; reflexivity. Qed.


End StatusFacts.

(** ** Errors at the HTTP facade *)

Module EndpointFacts.
Import Effects Manager AwsUtils.
Local Open Scope py_scope.

(** C3 as written fails: when [kubectl get svc grafana] exits with 1, the
    error raised is a [CalledProcessError] with its own message, and
    [/grafana/url] answers 500 with a fixed detail instead. *)
Lemma grafana_replaces_the_message :
  let s := SlowCluster.start 0 100 in
  let raw := CalledProcessError Main.grafana_cmd 1 in
  fst (check_output (E:=SlowCluster.env) Main.grafana_cmd s) = Raise raw
  /\ Main.str_exn (E:=SlowCluster.env) raw
     = "Command '['kubectl', 'get', 'svc', 'grafana', '-n', 'jmeter', '-o', 'jsonpath={.status.loadBalancer.ingress[0].hostname}']' returned non-zero exit status 1."
  /\ fst (Main.grafana (E:=SlowCluster.env) s)
     = Raise (HTTPException 500 "Grafana not ready yet").
Proof. repeat split. Qed.

(** C3, amended.  On a provider error the three listings are empty and
    [get_instance_info] is [None].  [/eks/create], [/test/run] and
    [/test/results] answer 500 with [str(e)] of whatever their body raised.
    [/eks/delete] does so when [eksctl] cannot be started, and answers the
    fixed detail [EKS deletion failed] when it exits with an error;
    [/grafana/url] answers the fixed detail [Grafana not ready yet] on
    every failure. *)
Theorem errors_at_the_facade :
  forall E : Env,
    (forall message inst_type,
       list_regions (AwsError message) = []
       /\ list_instance_types (AwsError message) = []
       /\ list_amis (AwsError message) = []
       /\ get_instance_info inst_type (AwsError message) = Returned None)
    /\ (forall A (body : M E A) s,
          fst (Main.surface_500 body s)
          = match fst (body s) with
            | Raise e => Raise (HTTPException 500 (Main.str_exn (E:=E) e))
            | r => r
            end)
    /\ (forall fuel data c region c' node_type,
          Main.AWS_REGION data = Some (String c region) ->
          Main.NODE_INSTANCE_TYPE data = Some (String c' node_type) ->
          Main.api_eks_create (E:=E) fuel data
          = Main.surface_500
              (Main.eks_create_body fuel (String c region) (String c' node_type)
                                    data))
    /\ (forall shards,
          Main.api_run (E:=E) shards = Main.surface_500 (Main.run_body shards))
    /\ Main.api_results (E:=E) = Main.surface_500 Main.results_body
    /\ (forall s,
          fst (Main.api_delete (E:=E) s)
          = match fst (run E (delete_cluster_cmd Main.manager) None (world s)) with
            | Exited rc _ _ =>
                if (rc =? 0)%Z then Ret "Deletion triggered"
                else Raise (HTTPException 500 "EKS deletion failed")
            | NotStarted m => Raise (HTTPException 500 m)
            end)
    /\ (forall s,
          fst (Main.grafana (E:=E) s)
          = match fst (run E Main.grafana_cmd None (world s)) with
            | Exited rc out _ =>
                if (rc =? 0)%Z
                then Ret ("http://" ++ PyStr.strip out
                          ++ ":3000/d/jmeter-dashboard")%string
                else Raise (HTTPException 500 "Grafana not ready yet")
            | NotStarted _ => Raise (HTTPException 500 "Grafana not ready yet")
            end).
Proof.
  intro E.
  split; [intros; repeat split |].
  split.
  { intros A body s. unfold Main.surface_500, try_except.
    destruct (body s) as [[a | e |] s']; reflexivity. }
  split.
  { intros fuel data c region c' node_type Hr Hn. unfold Main.api_eks_create.
    now rewrite Hr, Hn. }
  split; [reflexivity |].
  split; [reflexivity |].
  split.
  - intro s.
    unfold Main.api_delete, Main.surface_500, delete_cluster, try_except,
      check_call, bind, run_process.
    destruct (run E (delete_cluster_cmd Main.manager) None (world s))
      as [[rc out err | m] w]; cbn; [| reflexivity].
    destruct (rc =? 0)%Z; reflexivity.
  - intro s.
    unfold Main.grafana, try_except, check_output, bind, run_process.
    destruct (run E Main.grafana_cmd None (world s))
      as [[rc out err | m] w]; cbn; [| reflexivity].
    destruct (rc =? 0)%Z; reflexivity.
Qed.

End EndpointFacts.

(** ** More on the listings of [aws_utils] *)

Module AwsUtilsMore.
Import AwsUtils Reading.

Lemma prefix_refl (s : string) : String.prefix s s = true.
Proof.
  induction s as [| c s IH]; [reflexivity |].
  simpl. destruct (ascii_dec c c); [exact IH | contradiction].
Qed.

Lemma leading_lower_prefix (s : string) : String.prefix (leading_lower s) s = true.
Proof.
  induction s as [| c s IH]; [reflexivity |].
  simpl. destruct (is_lower_letter c); [| reflexivity].
  simpl. destruct (ascii_dec c c); [exact IH | contradiction].
Qed.

Lemma leading_lower_fixed (s : string) :
  leading_lower (leading_lower s) = leading_lower s.
Proof.
  induction s as [| c s IH]; [reflexivity |].
  simpl. destruct (is_lower_letter c) eqn:L; [| reflexivity].
  simpl. now rewrite L, IH.
Qed.

(** X1: the family of an instance type is a prefix of the type, is not
    empty unless the type is, and is its own family. *)
Theorem family_is_a_prefix :
  forall inst_type : string,
    PyStr.startswith (family inst_type) inst_type = true
    /\ (inst_type <> "" -> family inst_type <> "")
    /\ family (family inst_type) = family inst_type.
Proof.
  intro s. unfold family, PyStr.startswith.
  pose proof (leading_lower_prefix s) as P.
  pose proof (leading_lower_fixed s) as F.
  destruct (leading_lower s) as [| c m] eqn:L.
  - split; [apply prefix_refl |]. split; [auto |]. now rewrite L.
  - split; [exact P |]. split; [discriminate |]. now rewrite F.
Qed.

Lemma lookup_setdefault_append (k : string) (x : item) (g : groups) (f : string) :
  lookup f (setdefault_append k x g)
  = if String.eqb k f then lookup f g ++ [x] else lookup f g.
Proof.
  induction g as [| [k0 l] g IH]; simpl.
  - destruct (String.eqb k f); reflexivity.
  - destruct (String.eqb_spec k0 k) as [-> | N]; simpl.
    + destruct (String.eqb k f); reflexivity.
    + destruct (String.eqb_spec k0 f) as [-> | N'].
      * destruct (String.eqb_spec k f) as [-> | _]; [contradiction | reflexivity].
      * exact IH.
Qed.

Lemma lookup_fold (items : list item) (g : groups) (f : string) :
  lookup f (fold_left (fun g x => setdefault_append (fam x) x g) items g)
  = lookup f g ++ filter (fun x => String.eqb (fam x) f) items.
Proof.
  revert g. induction items as [| x t IH]; intro g; simpl.
  - now rewrite app_nil_r.
  - rewrite IH, lookup_setdefault_append.
    destruct (String.eqb (fam x) f); [now rewrite <- app_assoc | reflexivity].
Qed.

Lemma keys_fold (items : list item) (g : groups) (f : string) :
  In f (keys (fold_left (fun g x => setdefault_append (fam x) x g) items g))
  <-> In f (keys g) \/ exists x, In x items /\ fam x = f.
Proof.
  revert g. induction items as [| x t IH]; intro g; simpl.
  - split; [auto | intros [H | (x & [] & _)]; exact H].
  - rewrite IH, AwsUtilsFacts.setdefault_append_key_in. split.
    + intros [[-> | H] | (y & Hy & E)]; eauto.
    + intros [H | (y & [<- | Hy] & E)]; eauto.
Qed.

(** X2: the grouping loop files every item under its family and nothing
    else: the group of a family holds exactly the items of that family,
    in the order of the response; the families are those that occur, each
    once. *)
Theorem group_items_by_family :
  forall (items : list item) (f : string),
    lookup f (group_items items)
    = filter (fun x => String.eqb (family (type x)) f) items
    /\ (In f (keys (group_items items))
        <-> exists x, In x items /\ family (type x) = f)
    /\ NoDup (keys (group_items items)).
Proof.
  intros items f. unfold group_items. split; [apply (lookup_fold items [] f) |].
  split.
  - rewrite (keys_fold items [] f). simpl. split.
    + intros [[] | H]. exact H.
    + auto.
  - apply AwsUtilsFacts.group_items_invariant.
Qed.

Lemma sort_already_sorted {A} (leb : A -> A -> bool) (l : list A) :
  StronglySorted (fun a b => leb a b = true) l -> PySort.sort leb l = l.
Proof.
  induction 1 as [| x t St IH Hx]; [reflexivity |].
  simpl. rewrite IH. destruct t as [| y t']; [reflexivity |].
  simpl. inversion Hx as [| ? ? Hxy _]; subst. now rewrite Hxy.
Qed.

(** X3: a response that is already newest first is kept in its order:
    the listing is its first 50 images. *)
Theorem list_amis_keeps_sorted_response :
  forall images : list Image,
    StronglySorted (fun a b => PyStr.le (CreationDate b) (CreationDate a)) images ->
    list_amis (AwsOk images) = map ami_of (firstn 50 images).
Proof.
  intros images S. unfold list_amis, PySort.sorted_by_reverse. cbv zeta.
  now rewrite (sort_already_sorted _ images S).
Qed.

Lemma list_amis_keeps_sorted_response_witness :
  let img d := {| ImageId := "ami-" ++ d; CreationDate := d; Name := None;
                  Architecture := Some "x86_64"; Description := None |} in
  let images := [img "2024-03-01"; img "2024-02-01"; img "2024-02-01"] in
  list_amis (AwsOk images) = map ami_of (firstn 50 images).
Proof.
  intros img images. apply list_amis_keeps_sorted_response.
  repeat constructor.
Defined.

Lemma lower_app (a b : string) :
  PyStr.lower (a ++ b) = (PyStr.lower a ++ PyStr.lower b)%string.
Proof. induction a as [| c a IH]; simpl; [reflexivity | now rewrite IH]. Qed.

Lemma prefix_app (m a b : string) :
  String.prefix m a = true -> String.prefix m (a ++ b) = true.
Proof.
  revert a. induction m as [| c m IH]; intros a H;
    [destruct (a ++ b)%string; reflexivity |].
  destruct a as [| d a]; [discriminate |]. simpl in *.
  destruct (ascii_dec c d); [now apply IH | discriminate].
Qed.

Lemma contains_app_l (m a b : string) :
  PyStr.contains m a = true -> PyStr.contains m (a ++ b) = true.
Proof.
  induction a as [| d a IH]; intro H.
  - simpl in H. rewrite orb_false_r in H.
    destruct m; [now destruct b | discriminate].
  - cbn [PyStr.contains] in H. apply orb_true_iff in H.
    change (String d a ++ b)%string with (String d (a ++ b)).
    cbn [PyStr.contains]. apply orb_true_iff. destruct H as [H | H].
    + left. now apply (prefix_app m (String d a) b).
    + right. now apply IH.
Qed.

Lemma contains_app_r (m a b : string) :
  PyStr.contains m b = true -> PyStr.contains m (a ++ b) = true.
Proof.
  intro H. induction a as [| d a IH]; [exact H |].
  change (String d a ++ b)%string with (String d (a ++ b)).
  cbn [PyStr.contains]. apply orb_true_iff. now right.
Qed.

(** X4: the detection does not depend on letter case and looks at name
    and description alike: an image is [AmazonLinux2023] as soon as its
    name or its description, lower-cased, holds one of the three marks. *)
Theorem detect_os_family_finds_marks :
  forall (img : Image) (rest : list Image) (mark : string),
    In mark al2023_marks ->
    PyStr.contains mark (PyStr.lower (get_or (Name img) "")) = true
    \/ PyStr.contains mark (PyStr.lower (get_or (Description img) "")) = true ->
    detect_os_family (AwsOk (img :: rest)) = "AmazonLinux2023".
Proof.
  intros img rest mark Mark Holds.
  assert (Text : PyStr.contains mark (os_text img) = true).
  { unfold os_text. rewrite lower_app. destruct Holds as [H | H].
    - now apply contains_app_l.
    - apply contains_app_r. rewrite lower_app. now apply contains_app_r. }
  unfold detect_os_family. cbv zeta.
  destruct Mark as [<- | [<- | [<- | []]]]; rewrite Text;
    rewrite ?orb_true_r; reflexivity.
Qed.

Lemma detect_os_family_finds_marks_witness :
  detect_os_family
    (AwsOk [ {| ImageId := "ami-1"; CreationDate := "2024-05-01";
                Name := Some "custom-image"; Architecture := None;
                Description := Some "Built on Amazon Linux 2023" |} ])
  = "AmazonLinux2023".
Proof.
  apply (detect_os_family_finds_marks _ _ "amazon linux 2023").
  - right. left. reflexivity.
  - right. reflexivity.
Defined.

(** X5: [/aws/instance-info] answers 404 exactly when the lookup fails or
    returns no entry.  Otherwise it describes the first entry: under the
    type name that was asked for, with the first supported architecture,
    [x86_64] when the entry names none; an entry with an empty list of
    architectures raises [IndexError]. *)
Theorem api_instance_info_answers :
  forall (asked : string) (describe : aws_result (list InstanceTypeInfo)),
    (Main.api_instance_info asked describe
     = Effects.Raise (Effects.HTTPException 404 "Instance type not found")
     <-> (exists message, describe = AwsError message) \/ describe = AwsOk [])
    /\ forall it rest,
         describe = AwsOk (it :: rest) ->
         Main.api_instance_info asked describe
         = match SupportedArchitectures it with
           | Some [] =>
               Effects.Raise (Effects.IndexError "list index out of range")
           | archs =>
               Effects.Ret {| instance_type := asked;
                              vcpus := DefaultVCpus it;
                              memory_mib := SizeInMiB it;
                              info_arch := match archs with
                                           | Some (a :: _) => a
                                           | _ => "x86_64"
                                           end |}
           end.
Proof.
  intros asked describe. split.
  - unfold Main.api_instance_info, get_instance_info.
    destruct describe as [[| it rest] | m].
    + split; [auto | reflexivity].
    + split.
      * destruct (arch (item_of it)); discriminate.
      * intros [[m H] | H]; discriminate.
    + split; [eauto | reflexivity].
  - intros it rest ->. unfold Main.api_instance_info, get_instance_info, item_of.
    cbn [arch]. destruct (SupportedArchitectures it) as [[| a l] |]; reflexivity.
Qed.

End AwsUtilsMore.

(** ** Names, paths and results *)

Module PathFacts.
Import Effects Manager Trace MoreReading ManagerFacts.

Lemma substring_all (s : string) : substring 0 (String.length s) s = s.
Proof. induction s as [| c s IH]; simpl; [reflexivity | now rewrite IH]. Qed.

Lemma substring_split (n : nat) (s : string) :
  n <= String.length s ->
  (substring 0 n s ++ substring n (String.length s - n) s)%string = s.
Proof.
  revert n. induction s as [| c s IH]; intros [| n] Le; simpl in *; try lia.
  - reflexivity.
  - now rewrite substring_all.
  - rewrite IH by lia. reflexivity.
Qed.

Lemma endswith_cut (suf s : string) :
  PyStr.endswith suf s = true ->
  s = (PyStr.drop_last (String.length suf) s ++ suf)%string.
Proof.
  unfold PyStr.endswith, PyStr.drop_last. intro H.
  apply andb_true_iff in H. destruct H as [Le Eq].
  apply Nat.leb_le in Le. apply String.eqb_eq in Eq.
  rewrite <- Eq at 2.
  rewrite <- (substring_split (String.length s - String.length suf) s) at 1 by lia.
  do 2 f_equal. lia.
Qed.

(** X6: [_is_cluster_scoped_template] accepts a name exactly when its
    last path component is [storageclass] or [storageclass-and-pvcs],
    bare or followed by one of [.yaml.j2], [.yml.j2], [.yaml], [.yml]:
    ten file names in all, and one suffix at most is cut off. *)
Theorem cluster_scoped_names_exactly :
  forall name : string,
    _is_cluster_scoped_template name = true
    <-> In (PyPath.path_name name) cluster_scoped_names.
Proof.
  intro name. unfold _is_cluster_scoped_template.
  set (b := PyPath.path_name name). clearbody b. split.
  - unfold template_suffixes. cbn [strip_first_suffix].
    repeat match goal with
           | |- context [PyStr.endswith ?suf b] =>
               let H := fresh "Ends" in
               destruct (PyStr.endswith suf b) eqn:H;
               [ apply endswith_cut in H; cbn [String.length] in H;
                 intro Base; apply orb_true_iff in Base;
                 destruct Base as [Base | Base]; apply String.eqb_eq in Base;
                 cbn [String.length] in Base;
                 rewrite Base in H; subst b; cbn; tauto
               | ]
           end.
    intro Base. apply orb_true_iff in Base.
    destruct Base as [Base | Base]; apply String.eqb_eq in Base; subst b;
      cbn; tauto.
  - cbn. intro H.
    repeat (destruct H as [<- | H]; [reflexivity |]). contradiction.
Qed.





Section Results.
Context {E : Env}.
Variable self : EKSJMeterManager.


End Results.

End PathFacts.

(** ** The operations of the manager, one by one *)

Module OperationFacts.
Import Effects Manager Trace MoreReading ManagerFacts.






Section WithEnv.
Context {E : Env}.
Variable self : EKSJMeterManager.


(** X10: [ensure_namespace] looks the namespace up and creates it only
    when the lookup exits with an error: one command when the namespace
    is there, two when it is not, and the result is then that of the
    creation.  When [kubectl] cannot be started nothing is created. *)
Theorem ensure_namespace_creates_when_missing :
  forall (ns : string) (s : state E),
    let get := ["kubectl"; "get"; "ns"; ns] in
    let create := ["kubectl"; "create"; "ns"; ns] in
    let r := fst (KubeHelper.ensure_namespace ns s) in
    let new_trace := trace (snd (KubeHelper.ensure_namespace ns s)) in
    exists r_get,
      fst (run E get None (world s)) = r_get
      /\ match r_get with
         | Exited rc _ _ =>
             if (rc =? 0)%Z
             then new_trace = trace s ++ [Ran get None r_get] /\ r = Ret tt
             else exists r_create,
                 new_trace = trace s ++ [Ran get None r_get;
                                         Ran create None r_create]
                 /\ r = if exited_ok r_create then Ret tt
                        else Raise (check_error create r_create)
         | NotStarted m =>
             new_trace = trace s ++ [Ran get None r_get]
             /\ r = Raise (OSError m)
         end.
Proof.
  intros ns s get create r new_trace. subst r new_trace get create.
  unfold KubeHelper.ensure_namespace, try_except, check_call, bind, run_process.
  run_step. eexists. split; [reflexivity |].
  by_result r.
  - split; reflexivity.
  - run_step. exists r.
    by_result r; simpl; rewrite ?Hrc0; rewrite <- app_assoc; split; reflexivity.
  - split; reflexivity.
Qed.

Lemma ensure_namespace_returned (ns : string) (s : state E) :
  exists evs,
    trace (snd (KubeHelper.ensure_namespace ns s)) = trace s ++ evs
    /\ (fst (KubeHelper.ensure_namespace ns s) = Ret tt -> ensured ns evs)
    /\ fst (KubeHelper.ensure_namespace ns s) <> OutOfFuel.
Proof.
  unfold KubeHelper.ensure_namespace, try_except, check_call, bind, run_process.
  run_step. by_result r.
  - eexists. split; [reflexivity |]. split; [| discriminate].
    intros _. left. eexists. split; [reflexivity | exact Hrc].
  - run_step.
    by_result r; (eexists; split; [now rewrite <- app_assoc |]);
      (split; [| discriminate]); try discriminate.
    intros _. right. eexists _, _. split; [reflexivity |].
    split; [| exact Hrc0].
    eexists _, _, _. split; [reflexivity |]. intros ->. discriminate.
  - eexists. split; [reflexivity |]. split; discriminate.
Qed.

(** The wait for the cluster, whatever the clock does: failed probes,
    each followed by a sleep, and, unless the fuel runs out, a last
    probe. *)
Lemma kube_ready_loop_shape (fuel : nat) (timeout start : Z) (s : state E) :
  exists fails,
    Forall exited_failing fails
    /\ match fst (kube_ready_loop fuel timeout start s) with
       | Ret _ =>
           exists last,
             trace (snd (kube_ready_loop fuel timeout start s))
             = trace s ++ probes fails last
             /\ exited_ok last = true
       | Raise _ =>
           exists last,
             trace (snd (kube_ready_loop fuel timeout start s))
             = trace s ++ probes fails last
             /\ exited_ok last = false
       | OutOfFuel =>
           trace (snd (kube_ready_loop fuel timeout start s))
           = trace s ++ flat_map (fun r => [Ran kube_ready_cmd None r; Slept 5])
                                 fails
       end.
Proof.
  revert s. induction fuel as [| fuel IH]; intro s.
  - exists []. split; [constructor |]. simpl. now rewrite app_nil_r.
  - cbn [kube_ready_loop].
    unfold try_except, check_call, bind, run_process, time, time_sleep.
    run_step. by_result r.
    + exists []. split; [constructor |].
      exists (Exited rc stdout stderr). split; [reflexivity | exact Hrc].
    + assert (Bad : exited_failing (Exited rc stdout stderr)).
      { exists rc, stdout, stderr. split; [reflexivity |]. intros ->. discriminate. }
      destruct (_ >? _)%Z; msimpl.
      * exists []. split; [constructor |].
        exists (Exited rc stdout stderr). split; [reflexivity | exact Hrc].
      * match goal with
        | |- context [kube_ready_loop fuel timeout start ?s1] =>
            destruct (IH s1) as (fails & Fails & Shape);
            destruct (kube_ready_loop fuel timeout start s1) as [[[] | e |] s2]
        end; msimpl;
          exists (Exited rc stdout stderr :: fails);
          (split; [now constructor |]).
        -- destruct Shape as (last & Tr & Ok). exists last.
           split; [| exact Ok].
           rewrite Tr. unfold probes. simpl. now rewrite <- !app_assoc.
        -- destruct Shape as (last & Tr & Ok). exists last.
           split; [| exact Ok].
           rewrite Tr. unfold probes. simpl. now rewrite <- !app_assoc.
        -- rewrite Shape. simpl. now rewrite <- !app_assoc.
    + exists []. split; [constructor |].
      exists (NotStarted message). split; reflexivity.
Qed.

(** X11: [create_cluster] runs [eksctl create cluster] first, and when
    that fails it runs nothing else.  It returns only after [eksctl]
    exited with 0, a probe of the cluster succeeded, and the two
    namespaces were found or created, [jmeter] before [monitoring]. *)
Theorem create_cluster_in_order :
  forall (fuel : nat) (region node_type : string) (s : state E),
    let cmd := create_cluster_cmd self region node_type None None
                                  "jmeter-nodes" 1 3 in
    let run := create_cluster self fuel region node_type None None
                              "jmeter-nodes" 1 3 s in
    exists r_create rest,
      trace (snd run) = trace s ++ Ran cmd None r_create :: rest
      /\ (exited_ok r_create = false ->
          rest = [] /\ fst run = Raise (check_error cmd r_create))
      /\ (fst run = Ret tt ->
          exited_ok r_create = true
          /\ exists fails last jm mon,
               rest = probes fails last ++ jm ++ mon
               /\ Forall exited_failing fails
               /\ exited_ok last = true
               /\ ensured (jmeter_namespace self) jm
               /\ ensured (monitoring_namespace self) mon).
Proof.
  intros fuel region node_type s cmd run. subst run cmd.
  unfold create_cluster, _wait_for_kube_ready, check_call, bind, run_process,
    time.
  run_step. exists r. by_result r.
  - match goal with
    | |- context [kube_ready_loop fuel 300 ?t0 ?s1] =>
        destruct (kube_ready_loop_shape fuel 300 t0 s1) as (fails & Fails & Shape);
        destruct (kube_ready_loop fuel 300 t0 s1) as [[[] | e |] s2]
    end; msimpl.
    + destruct Shape as (last & Tr & Ok).
      destruct (ensure_namespace_returned (jmeter_namespace self) s2)
        as (jm & TrJ & RetJ & FuelJ).
      destruct (KubeHelper.ensure_namespace (jmeter_namespace self) s2)
        as [[[] | e |] s3]; msimpl.
      * destruct (ensure_namespace_returned (monitoring_namespace self) s3)
          as (mon & TrM & RetM & FuelM).
        destruct (KubeHelper.ensure_namespace (monitoring_namespace self) s3)
          as [[[] | e |] s4]; msimpl.
        -- exists (probes fails last ++ jm ++ mon).
           split; [rewrite TrM, TrJ, Tr, <- !app_assoc; reflexivity |].
           split; [intro Bad; simpl in Bad; congruence |].
           intros _. split; [exact Hrc |].
           exists fails, last, jm, mon. auto 10.
        -- exists (probes fails last ++ jm ++ mon).
           split; [rewrite TrM, TrJ, Tr, <- !app_assoc; reflexivity |].
           split; [intro Bad; simpl in Bad; congruence | intro R; cbn in R; discriminate R].
        -- exfalso. now apply FuelM.
      * exists (probes fails last ++ jm).
        split; [rewrite TrJ, Tr, <- !app_assoc; reflexivity |].
        split; [intro Bad; simpl in Bad; congruence | intro R; cbn in R; discriminate R].
      * exfalso. now apply FuelJ.
    + destruct Shape as (last & Tr & Bad). exists (probes fails last).
      split; [rewrite Tr, <- !app_assoc; reflexivity |].
      split; [intro B; simpl in B; congruence | intro R; cbn in R; discriminate R].
    + eexists. split; [rewrite Shape, <- !app_assoc; reflexivity |].
      split; [intro B; simpl in B; congruence | intro R; cbn in R; discriminate R].
  - exists []. split; [reflexivity |].
    split; [intros _; split; reflexivity | intro R; cbn in R; discriminate R].
  - exists []. split; [reflexivity |].
    split; [intros _; split; reflexivity | intro R; cbn in R; discriminate R].
Qed.
End WithEnv.

End OperationFacts.

(** ** More on the endpoints *)

Module EndpointMore.
Import Effects Manager Trace MoreReading ManagerFacts.
Local Open Scope py_scope.

Section WithEnv.
Context {E : Env}.



(** X12: a request to [/eks/create] without a region or without a node
    type is answered 400 before anything is run: no command, no change of
    the world. *)
Theorem api_eks_create_validates_first :
  forall (fuel : nat) (data : Main.create_request) (s : state E),
    truthy (Main.AWS_REGION data) = false
    \/ truthy (Main.NODE_INSTANCE_TYPE data) = false ->
    Main.api_eks_create fuel data s
    = (Raise (HTTPException 400 "AWS_REGION and NODE_INSTANCE_TYPE are required"),
       s).
Proof.
  intros fuel data s Missing. unfold Main.api_eks_create.
  destruct (Main.AWS_REGION data) as [[| c r] |];
    destruct (Main.NODE_INSTANCE_TYPE data) as [[| c' n] |];
    try reflexivity.
  destruct Missing; discriminate.
Qed.

(** X13: the integer fields of [/eks/create] are converted only after
    the cluster is created.  With a field that [int] rejects, the request
    is answered 500 with the message of that error, after [eksctl], the
    wait and the namespaces have run their course, and no manifest is
    applied. *)
Theorem api_eks_create_converts_late :
  forall (fuel : nat) (data : Main.create_request) (c : ascii) (region : string)
         (c' : ascii) (node_type : string) (bad : exn) (s : state E),
    Main.AWS_REGION data = Some (String c region) ->
    Main.NODE_INSTANCE_TYPE data = Some (String c' node_type) ->
    first_bad_int data = Some bad ->
    let created := create_cluster Main.manager fuel (String c region)
                     (String c' node_type) None None "jmeter-nodes" 1 3 s in
    fst created = Ret tt ->
    Main.api_eks_create fuel data s
    = (Raise (HTTPException 500 (Main.str_exn (E:=E) bad)), snd created).
Proof.
  intros fuel data c region c' node_type bad s Hr Hn Bad created Created.
  subst created.
  unfold Main.api_eks_create. rewrite Hr, Hn.
  unfold Main.surface_500, Main.eks_create_body, try_except, bind.
  destruct (create_cluster _ _ _ _ _ _ _ _ _ s) as [[[] | e |] s1];
    try discriminate. msimpl.
  unfold first_bad_int in Bad. unfold Main.py_int.
  destruct (Main.req_MAX_SHARDS data) as [n1 | e1]; msimpl;
    [| injection Bad as ->; reflexivity].
  destruct (Main.req_THREADS data) as [n2 | e2]; msimpl;
    [| injection Bad as ->; reflexivity].
  destruct (Main.req_LOOP_COUNT data) as [n3 | e3]; msimpl;
    [discriminate | injection Bad as ->; reflexivity].
Qed.

End WithEnv.

Lemma api_eks_create_validates_first_witness :
  let data := {| Main.AWS_REGION := Some "";
                 Main.NODE_INSTANCE_TYPE := Some "m5.large";
                 Main.req_TESTPLAN_REPO := None;
                 Main.req_MAX_SHARDS := inl 2%Z;
                 Main.req_THREADS := inl 5%Z;
                 Main.req_LOOP_COUNT := inl 1%Z;
                 Main.req_TARGET_BASE_URL := None |} in
  let s := scripted_start all_is_well in
  Main.api_eks_create 3 data s
  = (Raise (HTTPException 400 "AWS_REGION and NODE_INSTANCE_TYPE are required"),
     s).
Proof.
  intros data s. apply api_eks_create_validates_first. left. reflexivity.
Defined.

Lemma api_eks_create_converts_late_witness :
  let data := {| Main.AWS_REGION := Some "eu-west-1";
                 Main.NODE_INSTANCE_TYPE := Some "m5.large";
                 Main.req_TESTPLAN_REPO := None;
                 Main.req_MAX_SHARDS := inl 2%Z;
                 Main.req_THREADS :=
                   inr (ValueError "invalid literal for int() with base 10: 'many'");
                 Main.req_LOOP_COUNT := inl 1%Z;
                 Main.req_TARGET_BASE_URL := None |} in
  let s := scripted_start all_is_well in
  Main.api_eks_create 3 data s
  = (Raise (HTTPException 500 "invalid literal for int() with base 10: 'many'"),
     snd (create_cluster Main.manager 3 "eu-west-1" "m5.large" None None
                         "jmeter-nodes" 1 3 s)).
Proof.
  intros data s.
  apply (api_eks_create_converts_late (E:=scripted all_is_well) 3 data
           "e" "u-west-1" "m" "5.large"
           (ValueError "invalid literal for int() with base 10: 'many'") s);
    reflexivity.
Defined.

(** A pod with a result file, asked for its results. *)
Example api_results_on_a_pod_with_results :
  let run := Main.api_results (scripted_start pod_with_results) in
  fst run = Ret ("./results/run1.jtl", "run1.jtl")
  /\ invocations (trace (snd run))
     = [ KubeHelper.get_pod_name_cmd "jmeter" "app=jmeter-master";
         ["kubectl"; "exec"; "-n"; "jmeter"; "master-0"; "--"; "sh"; "-c";
          "ls -1 /results/*.jtl 2>/dev/null | head -n 1"];
         ["kubectl"; "cp"; "jmeter/master-0:/results/run1.jtl";
          "./results/run1.jtl"] ].
Proof. split; reflexivity. Qed.

End EndpointMore.

(** ** Runs, manifests and the status after a run *)

Module RunFacts.
Import Effects Manager Trace MoreReading ManagerFacts.
Local Open Scope py_scope.

Section WithEnv.
Context {E : Env}.
Variable self : EKSJMeterManager.




(** X16: [apply_jmeter_manifests] does not go on after a failure.  Every
    [kubectl apply] before the last one exited with 0; when the call
    returns, all did; when an apply fails it is the last command, and the
    exception is a [RuntimeError] with the stripped standard error of
    that apply (or the [OSError] of a [kubectl] that did not start). *)
Theorem apply_stops_at_the_first_failure :
  forall (files : list string) (ctx : context) (s : state E),
    exists applied,
      trace (snd (apply_files self files ctx s)) = trace s ++ applied
      /\ match fst (apply_files self files ctx s) with
         | Ret _ => Forall ran_ok applied
         | Raise e =>
             Forall ran_ok applied
             \/ exists done argv yaml_text r,
                  applied = done ++ [Ran argv (Some yaml_text) r]
                  /\ Forall ran_ok done
                  /\ exited_ok r = false
                  /\ e = match r with
                         | Exited _ _ err => RuntimeError (PyStr.strip err)
                         | NotStarted m => OSError m
                         end
         | OutOfFuel => False
         end.
Proof.
  intros files ctx. induction files as [| f files IH]; intro s.
  - exists []. simpl. rewrite app_nil_r. split; [reflexivity | constructor].
  - cbn [apply_files]. unfold bind, exists_path. msimpl.
    destruct (path_exists E _ (world s)); msimpl; [| exact (IH s)].
    unfold render_template, jinja_render.
    destruct (render E f ctx (world s)) as [yaml_text | e]; msimpl.
    2: { exists []. rewrite app_nil_r. split; [reflexivity |]. left. constructor. }
    unfold KubeHelper.apply_manifest, popen_communicate, bind, run_process.
    run_step. by_result r.
    + match goal with
      | |- context [apply_files self files ctx ?s1] =>
          destruct (IH s1) as (applied & Tr & Shape);
          destruct (apply_files self files ctx s1) as [[[] | e |] s2]
      end; msimpl.
      * eexists. split; [rewrite Tr, <- app_assoc; reflexivity |].
        constructor; [exact Hrc | exact Shape].
      * eexists. split; [rewrite Tr, <- app_assoc; reflexivity |].
        destruct Shape as [All | (done & argv & y & r & -> & All & Bad & ->)].
        -- left. constructor; [exact Hrc | exact All].
        -- right. eexists (_ :: done), argv, y, r.
           split; [reflexivity |].
           split; [constructor; [exact Hrc | exact All] |].
           split; [exact Bad | reflexivity].
      * contradiction.
    + eexists. split; [reflexivity |]. right.
      eexists [], _, yaml_text, (Exited rc stdout stderr).
      split; [reflexivity |]. split; [constructor |].
      split; [exact Hrc | reflexivity].
    + eexists. split; [reflexivity |]. right.
      eexists [], _, yaml_text, (NotStarted message).
      repeat split. constructor.
Qed.

(** X17: with a negative timeout the wait for the cluster makes one
    probe and no more, if only the clock is not set back while the probe
    runs: success returns, failure is a [TimeoutError] at once, without
    any sleep. *)
Theorem negative_timeout_probes_once :
  forall (timeout : Z) (fuel : nat) (s : state E),
    (0 < ticks_per_second E)%Z ->
    (forall w, (clock E w <= clock E (snd (run E kube_ready_cmd None w)))%Z) ->
    (timeout < 0)%Z ->
    1 <= fuel ->
    exists r,
      trace (snd (_wait_for_kube_ready fuel timeout s))
      = trace s ++ [Ran kube_ready_cmd None r]
      /\ fst (_wait_for_kube_ready fuel timeout s)
         = match r with
           | Exited rc _ _ =>
               if (rc =? 0)%Z then Ret tt
               else Raise (TimeoutError
                             "Timeout waiting for EKS cluster to be ready")
           | NotStarted m => Raise (OSError m)
           end.
Proof.
  intros timeout fuel s Res Mono Neg Fuel.
  destruct fuel as [| fuel]; [lia |].
  unfold _wait_for_kube_ready, bind, time. msimpl.
  cbn [kube_ready_loop].
  unfold try_except, check_call, bind, run_process, time.
  pose proof (Mono (world s)) as Step.
  run_step. cbn [snd] in Step. exists r.
  by_result r; try (split; reflexivity).
  destruct (Z.gtb_spec (clock E w - clock E (world s))
                       (timeout * ticks_per_second E)) as [Late | Early];
    msimpl; [split; reflexivity | nia].
Qed.
End WithEnv.

Lemma negative_timeout_probes_once_witness :
  let s := SlowCluster.start 0 100 in
  exists r,
    trace (snd (_wait_for_kube_ready (E:=SlowCluster.env) 5 (-1) s))
    = trace s ++ [Ran kube_ready_cmd None r]
    /\ fst (_wait_for_kube_ready (E:=SlowCluster.env) 5 (-1) s)
       = match r with
         | Exited rc _ _ =>
             if (rc =? 0)%Z then Ret tt
             else Raise (TimeoutError
                           "Timeout waiting for EKS cluster to be ready")
         | NotStarted m => Raise (OSError m)
         end.
Proof.
  intro s. apply (negative_timeout_probes_once (E:=SlowCluster.env)).
  - reflexivity.
  - intro w. simpl. lia.
  - reflexivity.
  - lia.
Defined.






End RunFacts.
